(** * Scan orchestration and triage engine: a shallow embedding

    The Python sources embedded here are
    - [ai-agent/workflow/graph.py]          (the per-finding workflow),
    - [services/scanner/core/parser.py]     (path cleaning, snippets),
    - [services/common/core/utils.py]       (snippets, second copy),
    - [services/scanner/core/scanner.py]    (analyzer command lines),
    - [services/orchestrator/core/logic.py] (readiness and job handlers).

    Python [str] values are sequences of Unicode code points and are
    modelled as [list N]; dictionaries are [gmap string pyval]; exceptions
    are explicit outcomes.  Collaborators (language model, sandbox, hosting
    API, file system, clock) are arguments of the functions that call
    them. *)

From Stdlib Require Import ZArith NArith List Lia Bool Ascii String.
From stdpp Require Import gmap strings list fin_maps.
Import ListNotations.

(* ===================================================================== *)
(** * Part I: definitions                                                 *)
(* ===================================================================== *)

(** ** Python strings *)

Module PyStr.

Local Open Scope N_scope.

(** A string literal of the source, as code points (ASCII literals only). *)
Definition cps (s : string) : list N :=
  map N_of_ascii (String.list_ascii_of_string s).

(** [c] is matched by the character class [[a-zA-Z]]. *)
Definition is_letter (c : N) : bool :=
  ((97 <=? c) && (c <=? 122)) || ((65 <=? c) && (c <=? 90)).

(** [str.upper] on the ASCII range; the workflow only applies it to the
    output of [re.sub(r'[^a-zA-Z]', '', _)], which is ASCII letters. *)
Definition upper_char (c : N) : N :=
  if (97 <=? c) && (c <=? 122) then c - 32 else c.

Definition upper (s : list N) : list N := map upper_char s.

(** [str.isspace] on one code point (CPython's [_PyUnicode_IsWhitespace]). *)
Definition is_space (c : N) : bool :=
  ((9 <=? c) && (c <=? 13)) || ((28 <=? c) && (c <=? 32))
  || (c =? 133) || (c =? 160) || (c =? 5760)
  || ((8192 <=? c) && (c <=? 8202))
  || (c =? 8232) || (c =? 8233) || (c =? 8239) || (c =? 8287)
  || (c =? 12288).

(** Line boundaries of [str.splitlines]. *)
Definition is_linebreak (c : N) : bool :=
  ((10 <=? c) && (c <=? 13)) || ((28 <=? c) && (c <=? 30))
  || (c =? 133) || (c =? 8232) || (c =? 8233).

Fixpoint lstrip_by (p : N -> bool) (s : list N) : list N :=
  match s with
  | [] => []
  | c :: s' => if p c then lstrip_by p s' else s
  end.

Definition rstrip_by (p : N -> bool) (s : list N) : list N :=
  rev (lstrip_by p (rev s)).

(** [s.strip()] *)
Definition strip (s : list N) : list N :=
  rstrip_by is_space (lstrip_by is_space s).

(** [s.lstrip("/")] *)
Definition lstrip_slash (s : list N) : list N :=
  lstrip_by (N.eqb 47) s.

(** [s.startswith(w)] *)
Fixpoint startswith (w s : list N) : bool :=
  match w, s with
  | [], _ => true
  | _ :: _, [] => false
  | a :: w', b :: s' => (a =? b) && startswith w' s'
  end.

(** [w in s] for strings: [w] occurs as a contiguous substring. *)
Fixpoint contains (w s : list N) : bool :=
  startswith w s ||
  match s with
  | [] => false
  | _ :: s' => contains w s'
  end.

(** [s.replace(old, "")] for a non-empty [old]: the non-overlapping
    occurrences are deleted from left to right.  [skip] counts the
    characters of the current occurrence still to drop. *)
Fixpoint delete_all_aux (old : list N) (skip : nat) (s : list N) : list N :=
  match s with
  | [] => []
  | c :: s' =>
      match skip with
      | S k => delete_all_aux old k s'
      | O => if startswith old s
             then delete_all_aux old (Nat.pred (length old)) s'
             else c :: delete_all_aux old O s'
      end
  end.

Definition delete_all (old s : list N) : list N := delete_all_aux old O s.

(** Length of the longest prefix of [s] whose characters satisfy [p]. *)
Fixpoint span_length (p : N -> bool) (s : list N) : nat :=
  match s with
  | c :: s' => if p c then S (span_length p s') else O
  | [] => O
  end.

(** [s.splitlines()]: [cur] is the current line, reversed. *)
Fixpoint splitlines_aux (cur : list N) (s : list N) : list (list N) :=
  match s with
  | [] => match cur with [] => [] | _ => [rev cur] end
  | c :: s' =>
      if is_linebreak c then
        rev cur ::
        match s' with
        | d :: s'' => if (c =? 13) && (d =? 10)
                      then splitlines_aux [] s''
                      else splitlines_aux [] s'
        | [] => []
        end
      else splitlines_aux (c :: cur) s'
  end.

Definition splitlines (s : list N) : list (list N) := splitlines_aux [] s.

(** [len(s.strip()) == 0] *)
Definition blank (s : list N) : bool :=
  match strip s with [] => true | _ => false end.

End PyStr.


(** ** Python values, dictionaries and exceptions *)

Module Py.

(** The values a finding dictionary holds (JSON scalars). *)
Inductive pyval :=
| PNone
| PBool (b : bool)
| PInt (z : Z)
| PStr (s : list N).

#[global] Instance pyval_eq_dec : EqDecision pyval.
Proof. solve_decision. Defined.

Inductive exn :=
| IndexError
| KeyError (k : string)
| TypeError
| AttributeError
| DBError
| GraphRecursionError.

(** Truth value of [v] in a condition ([if v], [not v]). *)
Definition truthy (v : pyval) : bool :=
  match v with
  | PNone => false
  | PBool b => b
  | PInt z => negb (z =? 0)%Z
  | PStr s => match s with [] => false | _ => true end
  end.

(** [d.get(k)] *)
Definition get (d : gmap string pyval) (k : string) : pyval :=
  default PNone (d !! k).

(** [l[i]] with Python's negative indices; [None] is [IndexError]. *)
Definition getitem {A} (l : list A) (i : Z) : option A :=
  let n := Z.of_nat (length l) in
  if (i <? 0)%Z
  then (if (0 <=? n + i)%Z then l !! Z.to_nat (n + i) else None)
  else l !! Z.to_nat i.

(** One bound of a slice, clipped into [0 .. len] as [l[a:b]] does. *)
Definition slice_bound (len : nat) (i : Z) : nat :=
  let n := Z.of_nat len in
  Z.to_nat (if (i <? 0)%Z then Z.max 0 (n + i) else Z.min i n).

(** [l[a:b]] *)
Definition slice {A} (l : list A) (a b : Z) : list A :=
  let lo := slice_bound (length l) a in
  let hi := slice_bound (length l) b in
  take (hi - lo) (drop lo l).

(** [l[-1] = x] for a non-empty [l] (the in-place update of the dictionary
    that [l[-1]] refers to). *)
Definition set_last {A} (l : list A) (x : A) : list A :=
  <[Nat.pred (length l) := x]> l.

End Py.

(** ** The workflow: [ai-agent/workflow/graph.py] and [pr_agent.py] *)

Module Graph.
Import PyStr Py.
Local Open Scope N_scope.

(** [class GraphState(TypedDict)] *)
Record GraphState := mkState {
  findings : list (gmap string pyval);
  current_index : Z;
  analyzed_findings : list (gmap string pyval);
  source_path : list N;
  project : list N
}.

(** What a node does: it returns (the state after the returned keys are
    merged), or an exception leaves it (with the state as written so far). *)
Inductive outcome :=
| Returned (st : GraphState)
| Raised (e : exn) (st : GraphState).

(** [llm.invoke(...)]: a response with text content, or an exception. *)
Inductive llm_reply :=
| Reply (content : list N)
| LlmRaised.

(** The body of the [try] in [node_red_team]: the model call, [verify_poc]
    and [save_telemetry] all returned, or one of them raised. *)
Inductive poc_outcome :=
| PocDone (success output : pyval)
| PocRaised.

(** [save_telemetry]: the database accepted the write, or raised. *)
Inductive db_outcome := DbOk | DbRaised.

(** [create_security_pr]: the pull request's URL, or the exception. *)
Inductive pr_outcome :=
| PrCreated (html_url : list N)
| PrRaised (msg : list N).

(** The steps of [create_security_pr] that can raise, in program order. *)
Inductive pr_step :=
| WritePatch | GitConfigEmail | GitConfigName | GitCheckout | GitAdd
| GitCommit | GitPush | ApiGetRepo | ApiCreatePull.

Definition pr_steps : list pr_step :=
  [WritePatch; GitConfigEmail; GitConfigName; GitCheckout; GitAdd;
   GitCommit; GitPush; ApiGetRepo; ApiCreatePull].

Fixpoint first_failure (fails : pr_step -> option (list N))
    (steps : list pr_step) : option (list N) :=
  match steps with
  | [] => None
  | s :: rest =>
      match fails s with
      | Some msg => Some msg
      | None => first_failure fails rest
      end
  end.

(** [create_security_pr]: every step runs inside one [try]; the handler
    prints and re-raises ([raise e]). *)
Definition create_security_pr (fails : pr_step -> option (list N))
    (html_url : list N) : pr_outcome :=
  match first_failure fails pr_steps with
  | Some msg => PrRaised msg
  | None => PrCreated html_url
  end.

(** [re.sub(r'[^a-zA-Z]', '', s)] *)
Definition re_sub_nonletters (s : list N) : list N :=
  List.filter is_letter s.

Definition TP : list N := cps "TP".
Definition FP : list N := cps "FP".
Definition RV : list N := cps "RV".

(** The [try]/[except] of [node_triage]. *)
Definition triage_verdict (r : llm_reply) : list N :=
  match r with
  | Reply content =>
      let verdict := upper (re_sub_nonletters content) in
      if contains TP verdict then TP else FP
  | LlmRaised => FP
  end.

Definition node_triage (r : llm_reply) (state : GraphState) : outcome :=
  let index := current_index state in
  match getitem (findings state) index with
  | None => Raised IndexError state
  | Some finding =>
      (* print(f"... {finding.get('snippet')[:50]}...") *)
      match get finding "snippet" with
      | PStr _ =>
          if (Z.of_nat (length (findings state)) <=? index)%Z
          then Returned state
          else
            let ai_verdict := triage_verdict r in
            let new_finding :=
              <["triage_decision" :=
                  PStr (if bool_decide (ai_verdict = TP) then RV else FP)]>
                (<["ai_verdict" := PStr ai_verdict]> finding) in
            Returned
              (mkState (findings state) (index + 1)
                 (analyzed_findings state ++ [new_finding])
                 (source_path state) (project state))
      | _ => Raised TypeError state
      end
  end.

Definition with_analyzed (state : GraphState)
    (analyzed : list (gmap string pyval)) : GraphState :=
  mkState (findings state) (current_index state) analyzed
    (source_path state) (project state).

Definition node_red_team (p : poc_outcome) (state : GraphState) : outcome :=
  let analyzed := analyzed_findings state in
  match last analyzed with
  | None => Returned state
  | Some finding =>
      if bool_decide (get finding "ai_verdict" = PStr TP) then
        let finding' :=
          match p with
          | PocDone success output =>
              <["red_team_output" := output]>
                (<["red_team_success" := success]> finding)
          | PocRaised => <["red_team_success" := PBool false]> finding
          end in
        Returned (with_analyzed state (set_last analyzed finding'))
      else Returned (with_analyzed state analyzed)
  end.

(** Length of the match of [```[a-zA-Z]*\n] at the head of [s], if any. *)
Definition fence_match (s : list N) : option nat :=
  if startswith (cps "```") s then
    let rest := drop 3 s in
    let n := span_length is_letter rest in
    match drop n rest with
    | c :: _ => if c =? 10 then Some (3 + n + 1)%nat else None
    | [] => None
    end
  else None.

(** [re.sub(r"```[a-zA-Z]*\n", "", s)] *)
Fixpoint re_sub_fence_aux (skip : nat) (s : list N) : list N :=
  match s with
  | [] => []
  | c :: s' =>
      match skip with
      | S k => re_sub_fence_aux k s'
      | O =>
          match fence_match s with
          | Some n => re_sub_fence_aux (Nat.pred n) s'
          | None => c :: re_sub_fence_aux O s'
          end
      end
  end.

Definition clean_patch (content : list N) : list N :=
  strip (delete_all (cps "```") (re_sub_fence_aux O content)).

Definition node_remediate (r : llm_reply) (state : GraphState) : outcome :=
  let analyzed := analyzed_findings state in
  match last analyzed with
  | None => Returned state
  | Some finding =>
      if bool_decide (get finding "ai_verdict" = PStr TP) then
        match r with
        | Reply content =>
            Returned (with_analyzed state
              (set_last analyzed
                 (<["remediation_patch" := PStr (clean_patch content)]>
                    finding)))
        | LlmRaised => Returned (with_analyzed state analyzed)
        end
      else Returned (with_analyzed state analyzed)
  end.

Definition CRITICAL_MODULES : list (list N) :=
  [cps "auth"; cps "jwt"; cps "session"; cps "encrypt"].

(** [[w for w in CRITICAL_MODULES if w in snippet and w not in patch]] *)
Definition deleted_criticals (snippet patch : list N) : list (list N) :=
  List.filter (fun w => contains w snippet && negb (contains w patch))
    CRITICAL_MODULES.

Definition is_empty (patch : list N) : bool :=
  (length (strip patch) =? 0)%nat.

Definition is_wiped (snippet patch : list N) : bool :=
  (length (splitlines patch) <? 2)%nat
  && (10 <? length (splitlines snippet))%nat.

(** The condition of [if deleted_criticals or is_empty or is_wiped]. *)
Definition sanity_rejects (snippet patch : list N) : bool :=
  match deleted_criticals snippet patch with
  | _ :: _ => true
  | [] => is_empty patch || is_wiped snippet patch
  end.

Definition node_sanity_check (db : db_outcome) (state : GraphState)
    : outcome :=
  let analyzed := analyzed_findings state in
  match last analyzed with
  | None => Returned state
  | Some finding =>
      let patch := get finding "remediation_patch" in
      if negb (truthy patch) then Returned state
      else
        match finding !! "file", finding !! "snippet" with
        | None, _ => Raised (KeyError "file") state
        | Some _, None => Raised (KeyError "snippet") state
        | Some _, Some (PStr snippet) =>
            match patch with
            | PStr p =>
                let finding_id := get finding "id" in
                let state' :=
                  if sanity_rejects snippet p
                  then with_analyzed state
                         (set_last analyzed
                            (<["remediation_patch" := PNone]> finding))
                  else with_analyzed state analyzed in
                if truthy finding_id then
                  match db with
                  | DbOk => Returned state'
                  | DbRaised => Raised DBError state'
                  end
                else Returned state'
            | _ =>
                (* [w not in patch] or [patch.strip()] on a non-string *)
                if existsb (fun w => contains w snippet) CRITICAL_MODULES
                then Raised TypeError state
                else Raised AttributeError state
            end
        | Some _, Some _ => Raised TypeError state
        end
  end.

Definition node_publish (pr : pr_outcome) (state : GraphState) : outcome :=
  let analyzed := analyzed_findings state in
  match last analyzed with
  | None => Returned state
  | Some finding =>
      let patch := get finding "remediation_patch" in
      if negb (truthy patch) then Returned state
      else
        match finding !! "file", finding !! "message", pr with
        | Some _, Some _, PrCreated pr_url =>
            Returned (with_analyzed state
              (set_last analyzed (<["pr_url" := PStr pr_url]> finding)))
        | _, _, _ =>
            (* the [except] branch: print and fall through *)
            Returned (with_analyzed state analyzed)
        end
  end.

Inductive edge := END | TRIAGE.

Definition should_continue (state : GraphState) : edge :=
  if (Z.of_nat (length (findings state)) <=? current_index state)%Z
  then END else TRIAGE.

(** *** The compiled graph *)

Inductive node := Ntriage | Nred_team | Nremediate | Nsanity_check | Npublish.

(** The collaborators' answers during one pass over the five nodes. *)
Record pass_world := mkPass {
  w_triage : llm_reply;
  w_red_team : poc_outcome;
  w_remediate : llm_reply;
  w_sanity_db : db_outcome;
  w_publish : pr_outcome
}.

Definition run_node (n : node) (w : pass_world) (state : GraphState)
    : outcome :=
  match n with
  | Ntriage => node_triage (w_triage w) state
  | Nred_team => node_red_team (w_red_team w) state
  | Nremediate => node_remediate (w_remediate w) state
  | Nsanity_check => node_sanity_check (w_sanity_db w) state
  | Npublish => node_publish (w_publish w) state
  end.

(** [add_edge] / [add_conditional_edges]: the node to run next and the
    pass it belongs to; [None] is [END]. *)
Definition next_node (n : node) (pass : nat) (state : GraphState)
    : option (node * nat) :=
  match n with
  | Ntriage => Some (Nred_team, pass)
  | Nred_team => Some (Nremediate, pass)
  | Nremediate => Some (Nsanity_check, pass)
  | Nsanity_check => Some (Npublish, pass)
  | Npublish =>
      match should_continue state with
      | END => None
      | TRIAGE => Some (Ntriage, S pass)
      end
  end.

(** [graph_app.invoke]: run nodes along the edges; [limit] bounds the
    number of node executions ([recursion_limit]).  The result carries the
    nodes that ran, in order. *)
Fixpoint run_from (limit : nat) (w : nat -> pass_world) (n : node)
    (pass : nat) (state : GraphState) : list node * outcome :=
  match limit with
  | O => ([], Raised GraphRecursionError state)
  | S limit' =>
      match run_node n (w pass) state with
      | Raised e st => ([n], Raised e st)
      | Returned st =>
          match next_node n pass st with
          | None => ([n], Returned st)
          | Some (n', pass') =>
              let '(trace, out) := run_from limit' w n' pass' st in
              (n :: trace, out)
          end
      end
  end.

Definition graph_app_invoke (limit : nat) (w : nat -> pass_world)
    (initial_state : GraphState) : list node * outcome :=
  run_from limit w Ntriage O initial_state.

(** The state a node or a run was in when it returned or raised. *)
Definition outcome_state (o : outcome) : GraphState :=
  match o with
  | Returned st => st
  | Raised _ st => st
  end.

Definition and_then (o : outcome) (k : GraphState -> outcome) : outcome :=
  match o with
  | Returned st => k st
  | Raised e st => Raised e st
  end.

(** One pass along the fixed edges triage, red_team, remediate,
    sanity_check, publish. *)
Definition one_pass : list node :=
  [Ntriage; Nred_team; Nremediate; Nsanity_check; Npublish].

Definition run_pass (w : pass_world) (state : GraphState) : outcome :=
  and_then (node_triage (w_triage w) state) (fun st1 =>
  and_then (node_red_team (w_red_team w) st1) (fun st2 =>
  and_then (node_remediate (w_remediate w) st2) (fun st3 =>
  and_then (node_sanity_check (w_sanity_db w) st3) (fun st4 =>
  node_publish (w_publish w) st4)))).

(** [n] consecutive passes, the first one being pass [k]. *)
Fixpoint run_passes (w : nat -> pass_world) (k n : nat) (state : GraphState)
    : outcome :=
  match n with
  | O => Returned state
  | S n' => and_then (run_pass (w k) state) (run_passes w (S k) n')
  end.

(** *** Predicates on findings used in the statements *)

(** The finding carries no pull-request URL (the key is absent or null). *)
Definition no_pr_url (f : gmap string pyval) : Prop :=
  get f "pr_url" = PNone.

(** A non-null [pr_url] implies a non-null [remediation_patch]. *)
Definition pr_url_needs_patch (f : gmap string pyval) : Prop :=
  get f "pr_url" <> PNone -> get f "remediation_patch" <> PNone.

(** A finding as the coordinator hands it to the graph: a string snippet
    (set by [populate_snippets]), a file, and no patch other than a string
    or a false value. *)
Definition str_or_falsy (v : pyval) : Prop :=
  match v with
  | PStr _ => True
  | _ => truthy v = false
  end.

Definition ready_finding (f : gmap string pyval) : Prop :=
  (exists snippet, f !! "snippet" = Some (PStr snippet)) /\
  is_Some (f !! "file") /\
  str_or_falsy (get f "remediation_patch").

(** The invariant that holds when node [n] is about to run. *)
Definition before (n : node) (st : GraphState) : Prop :=
  Forall pr_url_needs_patch (analyzed_findings st) /\
  Forall no_pr_url (findings st) /\
  (n <> Ntriage ->
   forall f, last (analyzed_findings st) = Some f -> no_pr_url f).

(** A node that only rewrites the finding under [analyzed[-1]]. *)
Definition rewrites_last (node : GraphState -> outcome) : Prop :=
  forall st l x,
    analyzed_findings st = l ++ [x] -> ready_finding x ->
    exists x', node st = Returned (with_analyzed st (l ++ [x'])) /\
               ready_finding x'.

End Graph.

(** ** The file system, as the snippet reader sees it *)

Module Fs.
Import PyStr.
Local Open Scope N_scope.

(** What [os.path.exists] and [open(path).readlines()] find at a path. *)
Inductive file_state :=
| Missing
| Unreadable
| Lines (lines : list (list N)).

Definition ends_with_sep (a : list N) : bool :=
  match last a with
  | Some c => c =? 47
  | None => false
  end.

(** [os.path.join(a, b)] (posixpath, two arguments). *)
Definition os_path_join (a b : list N) : list N :=
  if startswith (cps "/") b then b
  else match a with
       | [] => b
       | _ => if ends_with_sep a then a ++ b else a ++ cps "/" ++ b
       end.

End Fs.

(** ** [services/scanner/core/parser.py] *)

Module Parser.
Import PyStr Py Fs.
Local Open Scope N_scope.

(** [re.sub(r'^/tmp/(scans|uploads)/[^/]+/', '', path)]: [after_id s] is
    the text after [[^/]+/] when that matches at the head of [s]. *)
Definition after_id (s : list N) : option (list N) :=
  let n := span_length (fun c => negb (c =? 47)) s in
  match n, drop n s with
  | S _, _ :: rest => Some rest
  | _, _ => None
  end.

Definition after_prefix (prefix path : list N) : option (list N) :=
  if startswith prefix path
  then after_id (drop (length prefix) path)
  else None.

Definition re_sub_tmp_prefix (path : list N) : list N :=
  match after_prefix (cps "/tmp/scans/") path with
  | Some rest => rest
  | None =>
      match after_prefix (cps "/tmp/uploads/") path with
      | Some rest => rest
      | None => path
      end
  end.

Definition _clean_path (path : list N) : list N :=
  match path with
  | [] => []
  | _ =>
      let path :=
        if startswith (cps "file://") path
        then delete_all (cps "file://") path
        else path in
      let cleaned := re_sub_tmp_prefix path in
      if startswith (cps "/") cleaned then lstrip_slash cleaned else cleaned
  end.

Definition FORBIDDEN_PATHS : list (list N) :=
  [cps ".github"; cps "venv"; cps "node_modules"; cps "k8s-specifications";
   cps "docker-compose"; cps "Dockerfile"; cps ".yml"; cps ".yaml";
   cps "semgrep.sarif"; cps "gitleaks.json"; cps "checkov.sarif"].

(** [any(forbidden in file_path for forbidden in FORBIDDEN_PATHS)] *)
Definition forbidden_path (file_path : list N) : bool :=
  existsb (fun forbidden => contains forbidden file_path) FORBIDDEN_PATHS.

(** The dictionaries that [extract_findings] appends, from the values it
    reads out of the decoded report (the JSON decoding is not modelled).
    [None]: the finding is skipped ([continue]). *)
Definition sarif_finding (tool rule_id message : pyval) (uri : list N)
    (start_line : pyval) : option (gmap string pyval) :=
  let file_path := _clean_path uri in
  if forbidden_path file_path then None
  else Some (<["line" := start_line]>
               (<["file" := PStr (_clean_path file_path)]>
                  (<["message" := message]>
                     (<["rule_id" := rule_id]> {["tool" := tool]})))).

Definition gitleaks_finding (rule_id description : pyval) (file : list N)
    (start_line : pyval) : option (gmap string pyval) :=
  let file_path := _clean_path file in
  if forbidden_path file_path then None
  else Some (<["line" := start_line]>
               (<["file" := PStr (_clean_path file_path)]>
                  (<["message" := description]>
                     (<["rule_id" := rule_id]>
                        {["tool" := PStr (cps "Gitleaks")]})))).

Definition zap_finding (pluginid : pyval) (message : list N) (url : pyval)
    : gmap string pyval :=
  <["dast_endpoint" := url]>
    (<["line" := PInt 0]>
       (<["file" := PStr (cps "dast-report")]>
          (<["message" := PStr message]>
             (<["rule_id" := pluginid]>
                {["tool" := PStr (cps "OWASP ZAP")]})))).

(** The three placeholder snippets; all start with U+26A0 U+FE0F. *)
Definition warning_sign : list N := [9888; 65039].

Definition SNIPPET_NOT_FOUND : list N :=
  warning_sign ++ cps " Source code not found on local Fedora disk.".
Definition SNIPPET_FILE_EMPTY : list N :=
  warning_sign ++ cps " File is empty.".
Definition SNIPPET_EMPTY : list N :=
  warning_sign ++ cps " Snippet is empty.".

(** The lines read from the file, once [actual_line] is known. *)
Definition extract_snippet (lines : list (list N)) (actual_line : Z)
    : list N :=
  let start := Z.max 0 (actual_line - 5) in
  let end_ := Z.min (Z.of_nat (length lines)) (actual_line + 5) in
  let extracted_snippet := concat (slice lines start end_) in
  if blank extracted_snippet then SNIPPET_EMPTY else extracted_snippet.

(** [f["line"] - 1]; [None] is the [KeyError] or [TypeError] that the
    [except] around the read swallows. *)
Definition line_minus_one (f : gmap string pyval) : option Z :=
  match f !! "line" with
  | Some (PInt z) => Some (z - 1)%Z
  | Some (PBool b) => Some ((if b then 1 else 0) - 1)%Z
  | _ => None
  end.

(** The body of the [for] loop, for one finding.  [f["file"]] is read
    outside the [try]: a missing or non-string file raises. *)
Definition populate_snippet (fs : list N -> file_state)
    (source_root : list N) (f : gmap string pyval)
    : gmap string pyval * option exn :=
  let f0 := <["snippet" := PStr SNIPPET_NOT_FOUND]> f in
  match f0 !! "file" with
  | None => (f0, Some (KeyError "file"))
  | Some (PStr file) =>
      match fs (os_path_join source_root file) with
      | Missing => (f0, None)
      | Unreadable => (f0, None)
      | Lines [] => (<["snippet" := PStr SNIPPET_FILE_EMPTY]> f0, None)
      | Lines lines =>
          match line_minus_one f0 with
          | Some actual_line =>
              (<["snippet" := PStr (extract_snippet lines actual_line)]> f0,
               None)
          | None => (f0, None)
          end
      end
  | Some _ => (f0, Some TypeError)
  end.

(** [populate_snippets]: the dictionaries are updated in place, so the
    findings before the one that raised keep their snippets. *)
Fixpoint populate_snippets (fs : list N -> file_state)
    (findings : list (gmap string pyval)) (source_root : list N)
    : list (gmap string pyval) * option exn :=
  match findings with
  | [] => ([], None)
  | f :: rest =>
      match populate_snippet fs source_root f with
      | (f', Some e) => (f' :: rest, Some e)
      | (f', None) =>
          let '(rest', r) := populate_snippets fs rest source_root in
          (f' :: rest', r)
      end
  end.

(** *** Notions used in the statements *)

(** The slice taken by [extract_snippet] for a reported line [line >= -4]:
    the lines with 0-based index from [max(0, line - 6)] up to, and not
    including, [min(len, line + 4)]. *)
Definition window (lines : list (list N)) (line : Z) : list (list N) :=
  let lo := Z.to_nat (Z.max 0 (line - 6)%Z) in
  let hi := Z.to_nat (Z.min (Z.of_nat (length lines)) (line + 4)%Z) in
  take (hi - lo) (drop lo lines).

(** The finding is the one given, with a string under ["snippet"]. *)
Definition with_snippet (f f' : gmap string pyval) : Prop :=
  exists s, f' = <["snippet" := PStr s]> f.

(** A finding as [extract_findings] builds it. *)
Definition normalized (f : gmap string pyval) : Prop :=
  (exists tool rule_id message uri start_line,
     sarif_finding tool rule_id message uri start_line = Some f) \/
  (exists rule_id description file start_line,
     gitleaks_finding rule_id description file start_line = Some f) \/
  (exists pluginid message url, f = zap_finding pluginid message url).

(** The finding names its file by a string. *)
Definition has_file (f : gmap string pyval) : Prop :=
  exists file, f !! "file" = Some (PStr file).

(** The finding names its file and has neither patch nor URL yet. *)
Definition fresh (f : gmap string pyval) : Prop :=
  has_file f /\ f !! "remediation_patch" = None /\ f !! "pr_url" = None.

End Parser.

(** ** [services/common/core/utils.py] *)

Module Utils.
Import PyStr Py Fs.

Section Snippets.

(** [int(s)] on a string: the integer it denotes, or [None] ([ValueError]). *)
Variable int_of_str : list N -> option Z.

(** [int(f.get("line", 1)) - 1]; [None] is the exception that the [except]
    around the read swallows. *)
Definition line_minus_one (f : gmap string pyval) : option Z :=
  match f !! "line" with
  | None => Some (1 - 1)%Z
  | Some (PInt z) => Some (z - 1)%Z
  | Some (PBool b) => Some ((if b then 1 else 0) - 1)%Z
  | Some (PStr s) => (fun z => z - 1)%Z <$> int_of_str s
  | Some PNone => None
  end.

Definition populate_snippet (fs : list N -> file_state)
    (source_root : list N) (f : gmap string pyval)
    : gmap string pyval * option exn :=
  let f0 := <["snippet" := PStr Parser.SNIPPET_NOT_FOUND]> f in
  match f0 !! "file" with
  | None => (f0, Some (KeyError "file"))
  | Some (PStr file) =>
      match fs (os_path_join source_root file) with
      | Missing => (f0, None)
      | Unreadable => (f0, None)
      | Lines [] =>
          (<["snippet" := PStr Parser.SNIPPET_FILE_EMPTY]> f0, None)
      | Lines lines =>
          match line_minus_one f0 with
          | Some actual_line =>
              (<["snippet" :=
                   PStr (Parser.extract_snippet lines actual_line)]> f0,
               None)
          | None => (f0, None)
          end
      end
  | Some _ => (f0, Some TypeError)
  end.

Fixpoint populate_snippets (fs : list N -> file_state)
    (findings : list (gmap string pyval)) (source_root : list N)
    : list (gmap string pyval) * option exn :=
  match findings with
  | [] => ([], None)
  | f :: rest =>
      match populate_snippet fs source_root f with
      | (f', Some e) => (f' :: rest, Some e)
      | (f', None) =>
          let '(rest', r) := populate_snippets fs rest source_root in
          (f' :: rest', r)
      end
  end.

End Snippets.

End Utils.

(** ** [services/scanner/core/scanner.py] *)

Module Scanner.
Import PyStr Py Fs.
Local Open Scope N_scope.

Definition SCAN_DIR : list N := cps "/tmp/scans".

Definition shared_src_dir (scan_id : list N) : list N :=
  os_path_join SCAN_DIR (scan_id ++ cps "_src").

(** The command line up to the scan targets. *)
Definition semgrep_options (scan_id : list N) (extra_rules : list (list N))
    : list (list N) :=
  [cps "semgrep"; cps "scan"; cps "--disable-nosem"; cps "--config=p/default";
   cps "--config=p/owasp-top-ten"; cps "--config=p/secrets"]
  ++ map (fun rule => cps "--config=" ++ rule) extra_rules
  ++ [cps "--sarif"; cps "--quiet"; cps "-o";
      cps "/tmp/scans/semgrep_" ++ scan_id ++ cps ".sarif"].

(** The loop that fills [target_files]. *)
Fixpoint target_files (path_exists : list N -> bool) (scan_id : list N)
    (changed_files : list (list N)) : list (list N) :=
  match changed_files with
  | [] => []
  | f :: rest =>
      let safe_f := lstrip_slash f in
      let abs_path := os_path_join (shared_src_dir scan_id) safe_f in
      if path_exists abs_path
      then abs_path :: target_files path_exists scan_id rest
      else target_files path_exists scan_id rest
  end.

Definition semgrep_cmd (path_exists : list N -> bool) (scan_id : list N)
    (extra_rules changed_files : list (list N)) : list (list N) :=
  semgrep_options scan_id extra_rules ++
  match changed_files with
  | _ :: _ =>
      match target_files path_exists scan_id changed_files with
      | [] => [shared_src_dir scan_id]
      | targets => targets
      end
  | [] => [shared_src_dir scan_id]
  end.

Definition gitleaks_cmd (scan_id : list N) (changed_files : list (list N))
    : list (list N) :=
  [cps "gitleaks"; cps "detect";
   cps "--source=/tmp/scans/" ++ scan_id ++ cps "_src";
   cps "--report-path=/tmp/scans/gitleaks_" ++ scan_id ++ cps ".json";
   cps "--redact"; cps "--no-banner"; cps "--exit-code=0"]
  ++ match changed_files with _ :: _ => [cps "--no-git"] | [] => [] end.

Definition trivy_cmd (scan_id : list N) : list (list N) :=
  [cps "trivy"; cps "fs"; cps "--format"; cps "sarif"; cps "--output";
   cps "/tmp/scans/trivy_" ++ scan_id ++ cps ".sarif"; cps "--scanners";
   cps "vuln,secret,config"; cps "/tmp/scans/" ++ scan_id ++ cps "_src"].

Definition zap_cmd (scan_id target_url : list N) : list (list N) :=
  [cps "sh"; cps "-c";
   cps "touch /home/zap/zap_report.json; zap-baseline.py -p 8080 -t "
   ++ target_url
   ++ cps " -J zap_report.json -m 5; if [ -s /home/zap/zap_report.json ]; then cp /home/zap/zap_report.json /zap/wrk/zap_"
   ++ scan_id
   ++ cps ".json; else echo 'Empty Report'; exit 1; fi"].

(** The [tasks] dictionary, in insertion order. *)
Definition tasks (path_exists : list N -> bool) (scan_id : list N)
    (target_url : option (list N)) (extra_rules changed_files : list (list N))
    : list (string * list (list N)) :=
  [("semgrep", semgrep_cmd path_exists scan_id extra_rules changed_files);
   ("gitleaks", gitleaks_cmd scan_id changed_files);
   ("trivy", trivy_cmd scan_id)]
  ++ match target_url with
     | None | Some [] => []
     | Some url => [("zap", zap_cmd scan_id url)]
     end.

(** How a [docker exec] ended. *)
Inductive exec_result :=
| Exit (code : Z)
| LaunchError.

Definition allowed_exit_codes (name : string) : list Z :=
  if bool_decide (name = "zap" \/ name = "checkov") then [0; 1; 2]%Z
  else [0]%Z.

Definition _exec_docker (allowed : list Z) (r : exec_result) : bool :=
  match r with
  | Exit code => bool_decide (code ∈ allowed)
  | LaunchError => false
  end.

Definition report_path (scan_id : list N) (name : string) : list N :=
  let ext :=
    if bool_decide (name = "gitleaks" \/ name = "zap" \/ name = "checkov")
    then cps "json" else cps "sarif" in
  os_path_join SCAN_DIR (cps name ++ cps "_" ++ scan_id ++ cps "." ++ ext).

(** What [run_scan] meets outside itself. *)
Record scan_world := mkScanWorld {
  scan_id : list N;                     (* [str(uuid.uuid4())[:8]] *)
  src_dir_present : bool;               (* the workspace already exists *)
  copy_raises : bool;                   (* a [cp], [chmod] or [makedirs] raised *)
  path_exists : list N -> bool;         (* [os.path.exists] after the copy *)
  tool_result : string -> exec_result;  (* per container *)
  completion_order : list string        (* [as_completed], tools launched *)
}.

(** The tools launched, each with its command and allow-list, and the
    report files returned. *)
Record scan_run := mkScanRun {
  launched : list (string * list (list N) * list Z);
  report_files : list (list N)
}.

Definition run_scan (w : scan_world) (target_url : option (list N))
    (extra_rules changed_files : list (list N)) : scan_run :=
  if negb (src_dir_present w) && copy_raises w then mkScanRun [] []
  else
    let ts := tasks (path_exists w) (scan_id w) target_url extra_rules
                changed_files in
    mkScanRun
      (map (fun t => (t.1, t.2, allowed_exit_codes t.1)) ts)
      (map (report_path (scan_id w))
         (List.filter (fun name =>
                    bool_decide (name ∈ map fst ts) &&
                    _exec_docker (allowed_exit_codes name)
                      (tool_result w name))
            (completion_order w))).

End Scanner.

(** ** [services/orchestrator/core/logic.py] *)

Module Logic.
Import PyStr Py Fs Graph.
Local Open Scope Z_scope.

(** *** Readiness polling *)

(** The event-loop clock in milliseconds and the two [/readiness] probes:
    [start_time] is read before the loop; in round [k] the services are
    probed ([true]: status 200, no exception) and then the clock is read. *)
Record ready_world := mkReadyWorld {
  start_time : Z;
  analysis_ready : nat -> bool;
  remediation_ready : nat -> bool;
  time_at : nat -> Z
}.

Definition timeout_minutes : Z := 5.

Definition end_time (w : ready_world) : Z :=
  start_time w + 1000 * (60 * timeout_minutes).

(** The [while True] loop from round [k] on; [None]: still polling after
    [rounds] more rounds. *)
Fixpoint poll_from (rounds : nat) (w : ready_world) (k : nat) : option bool :=
  match rounds with
  | O => None
  | S rounds' =>
      let all_ready := analysis_ready w k && remediation_ready w k in
      if all_ready then Some true
      else if end_time w <? time_at w k then Some false
      else (* await asyncio.sleep(5) *) poll_from rounds' w (S k)
  end.

Definition ensure_services_ready (rounds : nat) (w : ready_world)
    : option bool :=
  poll_from rounds w O.

(** *** What the job handlers do, as a trace *)

Inductive status := pending | scanning | analyzing | completed | failed.

Inductive event :=
| ScanRowCreated (scan_id : Z)                   (* status [scanning] *)
| StatusSet (s : status)
| GitClone
| ChangedFilesDetected (files : list (list N))
| SandboxDeploy
| AnalyzersLaunched (target_url : option (list N))
                    (changed_files : list (list N))  (* POST /scan *)
| ReportParsed (report : list N)                    (* POST /parse *)
| WorkspacePrepared
| SnippetsPopulated
| FindingsPersisted (ids : list Z)
| EpssSynced
| WorkflowInvoked (nodes : list node)
| ResultsStored (analyzed : list (gmap string pyval))
| WorkspaceRemoved                               (* [temp_src] *)
| UploadRemoved
| CloneRemoved.

Definition TRIAGE_LIMIT : nat := 20.

Definition recursion_limit : nat := 150.

(** [[f["rule_id"] for f in findings
      if f.get("rule_id", "").startswith("CVE-")]]; [None]: a rule id that
    is not a string ([AttributeError]). *)
Fixpoint cve_ids (findings : list (gmap string pyval))
    : option (list pyval) :=
  match findings with
  | [] => Some []
  | f :: rest =>
      match default (PStr []) (f !! "rule_id") with
      | PStr s =>
          (fun ids => if startswith (cps "CVE-") s then PStr s :: ids else ids)
            <$> cve_ids rest
      | _ => None
      end
  end.

Section Handlers.

(** [int(s)] on a string, for [common.core.utils.populate_snippets]. *)
Variable int_of_str : list N -> option Z.

(** The collaborators of [run_brain_background]. *)
Record brain_world := mkBrainWorld {
  readiness : ready_world;
  temp_src : list N;                (* [/tmp/scans/brain_scan_<id>_<uuid>] *)
  prepare_raises : bool;            (* copytree, clone or checkout raised *)
  source_files : list N -> file_state;
  assigned_ids : option (list Z);   (* one id per finding after [db.flush()];
                                       [None]: the insert raised *)
  epss_raises : bool;
  passes : nat -> pass_world;
  store_raises : bool;
  workspace_left : bool             (* [os.path.exists(temp_src)] at the end *)
}.

Fixpoint stamp_ids (findings : list (gmap string pyval)) (ids : list Z)
    : list (gmap string pyval) :=
  match findings, ids with
  | f :: fs, i :: ids' => <["id" := PInt i]> f :: stamp_ids fs ids'
  | _, _ => []
  end.

(** The [except] and [finally] clauses of [run_brain_background]. *)
Definition brain_failed (w : brain_world) : list event :=
  StatusSet failed :: if workspace_left w then [WorkspaceRemoved] else [].

(** Steps 5 and 6 of [run_brain_background]: invoke the graph and store
    what it returns. *)
Definition run_workflow (w : brain_world) (project : list N)
    (graph_findings : list (gmap string pyval)) : list event :=
  let initial_state := mkState graph_findings 0 [] (temp_src w) project in
  match graph_app_invoke recursion_limit (passes w) initial_state with
  | (nodes, Raised _ _) => WorkflowInvoked nodes :: brain_failed w
  | (nodes, Returned final) =>
      WorkflowInvoked nodes ::
      if store_raises w then brain_failed w
      else ResultsStored (analyzed_findings final) :: StatusSet completed ::
           if workspace_left w then [WorkspaceRemoved] else []
  end.

(** [run_brain_background]; [rounds] bounds the readiness polling. *)
Definition run_brain_background (rounds : nat) (w : brain_world)
    (scan_id : Z) (project : list N) (findings : list (gmap string pyval))
    : option (list event) :=
  match ensure_services_ready rounds (readiness w) with
  | None => None
  | Some false => Some [StatusSet failed]
  | Some true =>
      let findings_to_process := take TRIAGE_LIMIT findings in
      Some
        (if prepare_raises w then brain_failed w
         else
           WorkspacePrepared ::
           match Utils.populate_snippets int_of_str (source_files w)
                   findings_to_process (temp_src w) with
           | (_, Some _) => brain_failed w
           | (populated, None) =>
               SnippetsPopulated ::
               match assigned_ids w with
               | None => brain_failed w
               | Some ids =>
                   let graph_findings := stamp_ids populated ids in
                   FindingsPersisted ids ::
                   match cve_ids findings with
                   | None => brain_failed w
                   | Some [] => run_workflow w project graph_findings
                   | Some _ =>
                       EpssSynced ::
                       if epss_raises w then brain_failed w
                       else run_workflow w project graph_findings
                   end
               end
           end)
  end.

(** The [metadata] fields that [perform_scan_background] branches on. *)
Record metadata := mkMetadata {
  repo_url : list N;
  target_url : option (list N);
  changed_files : list (list N)
}.

(** The collaborators of [perform_scan_background]. *)
Record scan_job_world := mkScanJobWorld {
  path_present : bool;                 (* [os.path.exists(path)] at entry *)
  new_scan_id : option Z;              (* [None]: creating the row raised *)
  clone_raises : bool;                 (* clone or checkout raised *)
  detected_changes : list (list N);    (* [git diff --name-only HEAD^ HEAD]
                                          when it ran and succeeded *)
  deployment : option (option (list N));
    (* [None]: no web application detected; [Some None]: deploy requested
       without a usable answer; [Some (Some url)]: deployed at [url] *)
  scanner_reports : option (list (list N)); (* [None]: POST /scan raised *)
  parsed : list N -> list (gmap string pyval); (* POST /parse, [] on error *)
  upload_left : bool;                  (* [os.path.exists(path)] at the end *)
  clone_left : bool;                   (* the same for [temp_clone_path] *)
  brain : brain_world
}.

(** The [finally] clause of [perform_scan_background]. *)
Definition job_cleanup (w : scan_job_world) (path : list N) (cloned : bool)
    : list event :=
  (if contains (cps "/tmp/scans/uploads/") path && upload_left w
   then [UploadRemoved] else [])
  ++ (if cloned && clone_left w then [CloneRemoved] else []).

(** [perform_scan_background]. *)
Definition perform_scan_background (rounds : nat) (w : scan_job_world)
    (project path : list N) (md : metadata) : option (list event) :=
  if negb (path_present w) then Some (job_cleanup w path false)
  else
    match new_scan_id w with
    | None => Some (job_cleanup w path false)
    | Some scan_id =>
        let needs_clone :=
          match repo_url md with [] => false | _ => true end
          && bool_decide (path = cps "/app") in
        if needs_clone && clone_raises w
        then Some ([ScanRowCreated scan_id; GitClone; StatusSet failed]
                   ++ job_cleanup w path true)
        else
          let clone := if needs_clone then [GitClone] else [] in
          let changed :=
            match changed_files md with
            | [] => detected_changes w
            | given => given
            end in
          let detect :=
            match changed_files md, detected_changes w with
            | [], (_ :: _) => [ChangedFilesDetected (detected_changes w)]
            | _, _ => []
            end in
          let wanted :=
            match target_url md with
            | None | Some [] => None
            | Some url => Some url
            end in
          let '(deploy, target) :=
            match wanted, deployment w with
            | None, Some (Some url) => ([SandboxDeploy], Some url)
            | None, Some None => ([SandboxDeploy], target_url md)
            | _, _ => ([], target_url md)
            end in
          let before_scan :=
            ScanRowCreated scan_id :: clone ++ detect ++ deploy
            ++ [AnalyzersLaunched target changed] in
          match scanner_reports w with
          | None =>
              Some (before_scan ++ [StatusSet failed]
                    ++ job_cleanup w path needs_clone)
          | Some report_paths =>
              let all_findings := concat (map (parsed w) report_paths) in
              match run_brain_background rounds (brain w) scan_id project
                      all_findings with
              | None => None
              | Some triage =>
                  Some (before_scan ++ map ReportParsed report_paths
                        ++ [StatusSet analyzing] ++ triage
                        ++ job_cleanup w path needs_clone)
              end
          end
    end.

End Handlers.

End Logic.

(** ** The specification's wording, where it is compared with the code *)

Module SpecWords.
Import PyStr Py Fs Graph.

(** The rejection rule of the sanity step as the specification words it:
    some critical token occurs in the snippet and none occurs in the patch,
    or the patch is whitespace-empty, or the snippet has more than 10 lines
    and the patch fewer than 2. *)
Definition spec_patch_rejected (snippet patch : list N) : bool :=
  (existsb (fun w => contains w snippet) CRITICAL_MODULES
   && negb (existsb (fun w => contains w patch) CRITICAL_MODULES))
  || blank patch
  || ((10 <? length (splitlines snippet))%nat
      && (length (splitlines patch) <? 2)%nat).

(** The sanity step as the specification states it, for a finding that
    enters with a non-null patch. *)
Definition spec_sanity_check : Prop :=
  forall db st f snippet patch,
    last (analyzed_findings st) = Some f ->
    is_Some (f !! "file") ->
    f !! "snippet" = Some (PStr snippet) ->
    f !! "remediation_patch" = Some (PStr patch) ->
    exists f',
      last (analyzed_findings (outcome_state (node_sanity_check db st)))
        = Some f' /\
      get f' "remediation_patch" =
        (if spec_patch_rejected snippet patch then PNone else PStr patch).

(** The snippet as the specification words it: the reported 1-based line
    is clamped to the file's length and the lines within 5 of the clamped
    line are extracted. *)
Definition spec_snippet (lines : list (list N)) (line : Z) : list N :=
  let clamped := Z.max 1 (Z.min line (Z.of_nat (length lines))) in
  let lo := Z.to_nat (Z.max 0 (clamped - 6)) in
  let hi := Z.to_nat (Z.min (Z.of_nat (length lines)) (clamped + 5)) in
  let window := concat (take (hi - lo) (drop lo lines)) in
  if blank window then Parser.SNIPPET_EMPTY else window.

Definition spec_populate_snippet : Prop :=
  forall fs source_root f file lines line,
    f !! "file" = Some (PStr file) ->
    f !! "line" = Some (PInt line) ->
    fs (os_path_join source_root file) = Lines lines ->
    lines <> [] ->
    (Parser.populate_snippet fs source_root f).1 !! "snippet"
      = Some (PStr (spec_snippet lines line)).

(** Path cleaning as the specification states it. *)
Definition spec_clean_path : Prop :=
  forall p,
    Parser._clean_path (Parser._clean_path p) = Parser._clean_path p /\
    startswith (cps "/tmp/scans/") (Parser._clean_path p) = false /\
    startswith (cps "/tmp/uploads/") (Parser._clean_path p) = false /\
    startswith (cps "/") (Parser._clean_path p) = false.

(** The readiness timeout as the specification states it: the scan is
    marked failed, processing stops, and no analyzer was launched. *)
Definition spec_readiness_timeout : Prop :=
  forall int_of_str rounds w project path md events,
    Logic.ensure_services_ready rounds (Logic.readiness (Logic.brain w))
      = Some false ->
    Logic.perform_scan_background int_of_str rounds w project path md
      = Some events ->
    Logic.StatusSet Logic.failed ∈ events /\
    forall target changed, Logic.AnalyzersLaunched target changed ∉ events.

End SpecWords.

(** ** Sample data: one scan with one finding *)

Module Examples.
Import PyStr Py Fs Graph Logic.

(** A finding as the normalizer and [populate_snippets] leave it. *)
Definition finding_auth : gmap string pyval :=
  <["snippet" := PStr (cps "import auth, jwt")]>
    (<["line" := PInt 1]>
       (<["message" := PStr (cps "hardcoded secret")]>
          (<["file" := PStr (cps "app.py")]>
             {["tool" := PStr (cps "Semgrep")]}))).

(** The same finding after a remediation that drops [auth]. *)
Definition finding_patched : gmap string pyval :=
  <["remediation_patch" := PStr (cps "import jwt")]> finding_auth.

(** The model answers TP, then a patch; the hosting API accepts. *)
Definition pass_accepting : pass_world :=
  mkPass (Reply (cps "TP")) PocRaised (Reply (cps "import auth, jwt, os"))
    DbOk (PrCreated (cps "https://git.example/pr/1")).

(** Services that never report ready; the clock advances 5 s per round. *)
Definition never_ready : ready_world :=
  mkReadyWorld 0 (fun _ => false) (fun _ => true)
    (fun k => 5000 * Z.of_nat (S k))%Z.

(** Both services ready at the first probe. *)
Definition ready_at_once : ready_world :=
  mkReadyWorld 0 (fun _ => true) (fun _ => true) (fun _ => 0%Z).

Definition one_file (path : list N) : file_state :=
  if bool_decide (path = cps "/src/app.py")
  then Lines [cps "import auth, jwt"] else Missing.

Definition brain_with (r : ready_world) : brain_world :=
  mkBrainWorld r (cps "/tmp/scans/brain_scan_1_ab12cd34") false one_file
    (Some [7%Z]) false (fun _ => pass_accepting) false true.

Definition job_with (r : ready_world) : scan_job_world :=
  mkScanJobWorld true (Some 1%Z) false [] None
    (Some [cps "/tmp/scans/semgrep_ab12cd34.sarif"])
    (fun _ => [finding_auth]) false false (brain_with r).

Definition no_metadata : metadata := mkMetadata [] None [].

Definition no_int (s : list N) : option Z := None.

(** A workspace in which only [a.py] of the changed files exists. *)
Definition delta_world : Scanner.scan_world :=
  Scanner.mkScanWorld (cps "ab12cd34") false false
    (fun p => bool_decide (p = cps "/tmp/scans/ab12cd34_src/a.py"))
    (fun _ => Scanner.Exit 0) ["trivy"; "semgrep"; "gitleaks"].

End Examples.

(* ===================================================================== *)
(** * Part II: properties                                                 *)
(* ===================================================================== *)

(** ** Strings *)

Section StringFacts.
Import PyStr.
Local Open Scope N_scope.

Lemma startswith_spec (w s : list N) :
  startswith w s = true <-> exists post, s = w ++ post.
Proof.
  revert s. induction w as [|a w IH]; intros s; simpl.
  - split; [intros _; by exists s | done].
  - destruct s as [|b s].
    + split; [done | intros [post H]; discriminate H].
    + rewrite andb_true_iff, N.eqb_eq, IH. split.
      * intros [-> [post ->]]. by exists post.
      * intros [post H]. injection H as -> ->. split; [done | by exists post].
Qed.

Lemma contains_spec (w s : list N) :
  contains w s = true <-> exists pre post, s = pre ++ w ++ post.
Proof.
  induction s as [|c s IH]; simpl.
  - rewrite orb_false_r, startswith_spec. split.
    + intros [post H]. by exists [], post.
    + intros [pre [post H]]. destruct pre; [by exists post|discriminate H].
  - rewrite orb_true_iff, startswith_spec, IH. split.
    + intros [[post H] | [pre [post H]]].
      * by exists [], post.
      * exists (c :: pre), post. by rewrite H.
    + intros [[|d pre] [post H]].
      * left. by exists post.
      * right. injection H as -> ->. by exists pre, post.
Qed.

Lemma lstrip_by_head (p : N -> bool) (s : list N) c rest :
  lstrip_by p s = c :: rest -> p c = false.
Proof.
  induction s as [|d s IH]; simpl; [done|].
  destruct (p d) eqn:E; [done|]. intros H. by injection H as -> _.
Qed.

End StringFacts.

(** ** Triage *)

Section TriageFacts.
Import PyStr Py Graph.
Local Open Scope N_scope.

Lemma filter_eq_cons (p : N -> bool) (l : list N) a y :
  List.filter p l = a :: y ->
  exists l1 l2, l = l1 ++ a :: l2 /\ List.filter p l1 = [] /\
                p a = true /\ List.filter p l2 = y.
Proof.
  induction l as [|c l IH]; simpl; [done|].
  destruct (p c) eqn:E.
  - intros H. injection H as -> <-. by exists [], l.
  - intros H. destruct (IH H) as (l1 & l2 & -> & H1 & Ha & H2).
    exists (c :: l1), l2. simpl. by rewrite E.
Qed.

Lemma filter_eq_app (p : N -> bool) (l x y : list N) :
  List.filter p l = x ++ y ->
  exists l1 l2, l = l1 ++ l2 /\ List.filter p l1 = x /\ List.filter p l2 = y.
Proof.
  revert l. induction x as [|a x IH]; intros l H.
  - by exists [], l.
  - apply filter_eq_cons in H as (l1 & l2 & -> & H1 & Ha & H2).
    destruct (IH _ H2) as (m1 & m2 & -> & Hm1 & Hm2).
    exists (l1 ++ a :: m1), m2. split; [by rewrite <- app_assoc|].
    split; [|done]. rewrite List.filter_app, H1. simpl. by rewrite Ha, Hm1.
Qed.

Lemma filter_nil_Forall (p : N -> bool) (l : list N) :
  List.filter p l = [] <-> Forall (fun c => p c = false) l.
Proof.
  induction l as [|c l IH]; simpl; [by split|].
  destruct (p c) eqn:E.
  - split; [done|]. intros H. inversion H; subst. congruence.
  - rewrite IH. split; [by constructor|]. intros H. by inversion H.
Qed.

Lemma upper_char_T c : upper_char c = 84 <-> c = 84 \/ c = 116.
Proof.
  unfold upper_char.
  destruct (N.leb_spec 97 c), (N.leb_spec c 122); simpl; lia.
Qed.

Lemma upper_char_P c : upper_char c = 80 <-> c = 80 \/ c = 112.
Proof.
  unfold upper_char.
  destruct (N.leb_spec 97 c), (N.leb_spec c 122); simpl; lia.
Qed.

(** After normalisation only the letters A to Z are left. *)
Lemma normalised_uppercase (content : list N) :
  Forall (fun c => 65 <= c <= 90) (upper (re_sub_nonletters content)).
Proof.
  unfold upper, re_sub_nonletters. apply Forall_map, Forall_forall.
  intros c Hc. apply list_elem_of_In, List.filter_In in Hc as [_ Hc].
  unfold is_letter in Hc. unfold upper_char.
  destruct (N.leb_spec 97 c), (N.leb_spec c 122), (N.leb_spec 65 c),
    (N.leb_spec c 90); simpl in *; try discriminate Hc; lia.
Qed.

(** The response is classified TP exactly when it has a [t] or [T] followed
    by a [p] or [P] with no ASCII letter in between. *)
Lemma verdict_TP_iff (content : list N) :
  contains TP (upper (re_sub_nonletters content)) = true <->
  exists pre t mid p post,
    content = pre ++ t :: mid ++ p :: post /\
    (t = 84 \/ t = 116) /\ (p = 80 \/ p = 112) /\
    Forall (fun c => is_letter c = false) mid.
Proof.
  rewrite contains_spec. unfold upper, re_sub_nonletters. split.
  - intros (x & y & H). change TP with [84; 80] in H.
    apply map_eq_app in H as (fx & f2 & Hf & _ & H).
    destruct f2 as [|t [|p fy]]; try discriminate H.
    injection H as Ht Hp _.
    apply filter_eq_app in Hf as (pre & l2 & -> & _ & H2).
    apply filter_eq_cons in H2 as (m0 & l3 & -> & Hm0 & _ & H3).
    apply filter_eq_cons in H3 as (mid & post & -> & Hmid & _ & _).

    exists (pre ++ m0), t, mid, p, post.
    rewrite <- app_assoc. split; [done|].
    split; [by apply upper_char_T|]. split; [by apply upper_char_P|].
    by apply filter_nil_Forall.
  - intros (pre & t & mid & p & post & -> & Ht & Hp & Hmid).
    apply filter_nil_Forall in Hmid.
    exists (map upper_char (List.filter is_letter pre)),
           (map upper_char (List.filter is_letter post)).
    rewrite List.filter_app. simpl.
    assert (is_letter t = true) as -> by (by destruct Ht as [-> | ->]).
    rewrite List.filter_app, Hmid. simpl.
    assert (is_letter p = true) as -> by (by destruct Hp as [-> | ->]).
    rewrite map_app. simpl.
    apply upper_char_T in Ht. apply upper_char_P in Hp. by rewrite Ht, Hp.
Qed.

End TriageFacts.

Section TriageNode.
Import PyStr Py Graph.
Local Open Scope N_scope.

Lemma getitem_Some_lt {A} (l : list A) (i : Z) (x : A) :
  getitem l i = Some x -> (i < Z.of_nat (length l))%Z.
Proof.
  unfold getitem. destruct (Z.ltb_spec i 0) as [Hi|Hi]; [lia|].
  intros H. apply lookup_lt_Some in H. lia.
Qed.

Lemma triage_verdict_cases (r : llm_reply) :
  triage_verdict r = TP \/ triage_verdict r = FP.
Proof. destruct r as [content|]; simpl; [case_match|]; auto. Qed.

(** What [node_triage] returns on a finding it can read. *)
Lemma node_triage_returns (r : llm_reply) (state : GraphState)
    (finding : gmap string pyval) (snippet : list N) :
  getitem (findings state) (current_index state) = Some finding ->
  get finding "snippet" = PStr snippet ->
  node_triage r state =
    Returned
      (mkState (findings state) (current_index state + 1)
         (analyzed_findings state ++
            [<["triage_decision" :=
                 PStr (if bool_decide (triage_verdict r = TP) then RV else FP)]>
               (<["ai_verdict" := PStr (triage_verdict r)]> finding)])
         (source_path state) (project state)).
Proof.
  intros Hget Hsn. unfold node_triage. rewrite Hget, Hsn.
  apply getitem_Some_lt in Hget.
  destruct (Z.leb_spec (Z.of_nat (length (findings state)))
              (current_index state)); [lia|done].
Qed.

(** C5. The verdict of a triaged finding: the model's response with every
    character outside a-z, A-Z removed and then uppercased is searched for
    "TP"; a response is TP exactly when it has a t/T followed by a p/P with
    no letter in between, FP otherwise, and FP when the model call raised.
    The [ai_verdict] that [node_triage] appends is that verdict, one of TP
    and FP. *)
Theorem C5_triage_verdict (r : llm_reply) (state : GraphState)
    (finding : gmap string pyval) (snippet : list N) :
  getitem (findings state) (current_index state) = Some finding ->
  get finding "snippet" = PStr snippet ->
  exists new_finding,
    node_triage r state =
      Returned (mkState (findings state) (current_index state + 1)
                  (analyzed_findings state ++ [new_finding])
                  (source_path state) (project state)) /\
    new_finding !! "ai_verdict" = Some (PStr (triage_verdict r)) /\
    (triage_verdict r = TP \/ triage_verdict r = FP) /\
    match r with
    | Reply content =>
        triage_verdict r =
          (if contains (cps "TP")
                (upper (List.filter is_letter content))
           then cps "TP" else cps "FP") /\
        Forall (fun c => 65 <= c <= 90)
          (upper (List.filter is_letter content)) /\
        (triage_verdict r = TP <->
         exists pre t mid p post,
           content = pre ++ t :: mid ++ p :: post /\
           (t = 84 \/ t = 116) /\ (p = 80 \/ p = 112) /\
           Forall (fun c => is_letter c = false) mid)
    | LlmRaised => triage_verdict r = FP
    end.
Proof.
  intros Hget Hsn. eexists. split; [by eapply node_triage_returns|].
  split.
  { rewrite lookup_insert_ne by done. by rewrite lookup_insert_eq. }
  split; [apply triage_verdict_cases|].
  destruct r as [content|]; [|done].
  split; [done|]. split; [apply normalised_uppercase|].
  rewrite <- verdict_TP_iff. simpl.
  destruct (contains TP (upper (re_sub_nonletters content))); split; done.
Qed.

Lemma C5_triage_verdict_witness :
  exists new_finding,
    node_triage (Reply (cps "Verdict: **tp**."))
      (mkState [{["snippet" := PStr (cps "os.system(cmd)")]}] 0 [] [] []) =
      Returned (mkState [{["snippet" := PStr (cps "os.system(cmd)")]}] 1
                  [new_finding] [] []) /\
    new_finding !! "ai_verdict" = Some (PStr (cps "TP")).
Proof.
  destruct (C5_triage_verdict (Reply (cps "Verdict: **tp**."))
              (mkState [{["snippet" := PStr (cps "os.system(cmd)")]}] 0 [] [] [])
              {["snippet" := PStr (cps "os.system(cmd)")]}
              (cps "os.system(cmd)"))
    as (nf & Hn & Hv & _); [reflexivity | vm_compute; reflexivity |].
  exists nf. split; [exact Hn | exact Hv].
Defined.

End TriageNode.

(** ** The workflow nodes *)

Section NodeFacts.
Import PyStr Py Graph.
Local Open Scope N_scope.

Lemma with_analyzed_same (state : GraphState) :
  with_analyzed state (analyzed_findings state) = state.
Proof. by destruct state. Qed.

Lemma last_set_last {A} (l : list A) (x y : A) :
  last l = Some y -> last (set_last l x) = Some x.
Proof.
  intros H. unfold set_last.
  destruct (last_Some l y) as [[l' ->] _]; [done|].
  rewrite length_app. simpl. rewrite Nat.add_1_r. simpl.
  rewrite insert_app_r_alt by lia. rewrite Nat.sub_diag. simpl.
  by rewrite last_snoc.
Qed.

Lemma length_set_last {A} (l : list A) (x : A) :
  length (set_last l x) = length l.
Proof. unfold set_last. by rewrite length_insert. Qed.

Lemma Forall_set_last {A} (P : A -> Prop) (l : list A) (x : A) :
  Forall P l -> P x -> Forall P (set_last l x).
Proof. intros Hl Hx. unfold set_last. by apply Forall_insert. Qed.

Lemma set_last_snoc {A} (l : list A) (x y : A) :
  set_last (l ++ [y]) x = l ++ [x].
Proof.
  unfold set_last. rewrite length_app. simpl. rewrite Nat.add_1_r. simpl.
  rewrite insert_app_r_alt by lia. by rewrite Nat.sub_diag.
Qed.

End NodeFacts.

(** ** The entry node on an exhausted or empty list *)

Section EntryNode.
Import PyStr Py Graph Logic.
Local Open Scope Z_scope.

Lemma getitem_past_end {A} (l : list A) (i : Z) :
  Z.of_nat (length l) <= i -> getitem l i = None.
Proof.
  intros H. unfold getitem.
  destruct (Z.ltb_spec i 0) as [Hi|Hi]; [lia|].
  apply lookup_ge_None. lia.
Qed.

(** Whenever the guard [index >= len(findings)] of [node_triage] holds, the
    access [findings[index]] above it has already raised. *)
Lemma node_triage_guard_dead (r : llm_reply) (state : GraphState) :
  Z.of_nat (length (findings state)) <= current_index state ->
  node_triage r state = Raised IndexError state.
Proof. intros H. unfold node_triage. by rewrite getitem_past_end. Qed.

(** C9. On an empty findings list with [current_index = 0] the entry node
    raises IndexError ([findings[index]] is evaluated before the bounds
    check, which therefore never prevents the access), the graph run stops
    there, and [run_brain_background], handed no findings, ends with the scan
    marked failed. *)
Theorem C9_empty_findings_raise (r : llm_reply) (w : nat -> pass_world)
    (limit : nat) (analyzed : list (gmap string pyval)) (src proj : list N) :
  node_triage r (mkState [] 0 analyzed src proj)
    = Raised IndexError (mkState [] 0 analyzed src proj) /\
  graph_app_invoke (S limit) w (mkState [] 0 [] src proj)
    = ([Ntriage], Raised IndexError (mkState [] 0 [] src proj)) /\
  (forall state,
     Z.of_nat (length (findings state)) <= current_index state ->
     node_triage r state = Raised IndexError state) /\
  (forall int_of_str rounds bw scan_id ids,
     ensure_services_ready rounds (readiness bw) = Some true ->
     prepare_raises bw = false ->
     assigned_ids bw = Some ids ->
     run_brain_background int_of_str rounds bw scan_id proj [] =
       Some ([WorkspacePrepared; SnippetsPopulated; FindingsPersisted ids;
              WorkflowInvoked [Ntriage]] ++ brain_failed bw)).
Proof.
  split; [by apply node_triage_guard_dead|].
  split; [done|].
  split; [intros state; apply node_triage_guard_dead|].
  intros int_of_str rounds bw scan_id ids Hready Hprep Hids.
  unfold run_brain_background. rewrite Hready, Hprep. simpl.
  rewrite Hids. simpl. done.
Qed.

End EntryNode.

(** ** Publishing *)

Section PublishFacts.
Import PyStr Py Graph.
Local Open Scope N_scope.

(** A failing step makes [create_security_pr] raise that step's error. *)
Lemma create_security_pr_raises fails html_url msg :
  first_failure fails pr_steps = Some msg ->
  create_security_pr fails html_url = PrRaised msg.
Proof. intros H. unfold create_security_pr. by rewrite H. Qed.

(** [node_publish] leaves the state as it is without a usable patch. *)
Lemma node_publish_skips (pr : pr_outcome) (state : GraphState) :
  (forall finding, last (analyzed_findings state) = Some finding ->
                   truthy (get finding "remediation_patch") = false) ->
  node_publish pr state = Returned state.
Proof.
  intros H. unfold node_publish.
  destruct (last (analyzed_findings state)) as [finding|]; [|done].
  by rewrite (H finding).
Qed.

(** C4 (what the code does). When the publisher raises, [node_publish]
    catches the exception and returns normally, so the run goes on to
    [should_continue]; the state it returns is the state it was given: the
    message is not stored, no [pr_error] is written on the finding. *)
Theorem C4_publish_error_dropped (msg : list N) (state : GraphState) :
  node_publish (PrRaised msg) state = Returned state /\
  (forall fails html_url,
     first_failure fails pr_steps = Some msg ->
     node_publish (create_security_pr fails html_url) state
       = Returned state) /\
  (forall (w : nat -> pass_world) limit pass,
     w_publish (w pass) = PrRaised msg ->
     run_from (S limit) w Npublish pass state =
       match should_continue state with
       | END => ([Npublish], Returned state)
       | TRIAGE =>
           (Npublish :: (run_from limit w Ntriage (S pass) state).1,
            (run_from limit w Ntriage (S pass) state).2)
       end).
Proof.
  assert (node_publish (PrRaised msg) state = Returned state) as Hp.
  { unfold node_publish.
    destruct (last (analyzed_findings state)) as [finding|]; [|done].
    destruct (negb _); [done|].
    rewrite with_analyzed_same. by repeat case_match. }
  split; [done|]. split.
  - intros fails html_url Hf.
    by rewrite (create_security_pr_raises _ _ _ Hf).
  - intros w limit pass Hw. simpl. rewrite Hw, Hp.
    destruct (should_continue state); [done|].
    by destruct (run_from limit w Ntriage (S pass) state).
Qed.

End PublishFacts.

(** ** No pull-request URL without a patch *)

Section PrInvariant.
Import PyStr Py Graph.
Local Open Scope N_scope.

Lemma get_insert_ne (f : gmap string pyval) (k k' : string) (v : pyval) :
  k <> k' -> get (<[k := v]> f) k' = get f k'.
Proof. intros H. unfold get. by rewrite lookup_insert_ne. Qed.

Lemma get_insert_eq (f : gmap string pyval) (k : string) (v : pyval) :
  get (<[k := v]> f) k = v.
Proof. unfold get. by rewrite lookup_insert_eq. Qed.

Lemma no_pr_url_needs_patch f : no_pr_url f -> pr_url_needs_patch f.
Proof. unfold no_pr_url, pr_url_needs_patch. congruence. Qed.

Lemma truthy_not_None v : truthy v = true -> v <> PNone.
Proof. by destruct v. Qed.

Lemma getitem_elem_of {A} (l : list A) (i : Z) (x : A) :
  getitem l i = Some x -> x ∈ l.
Proof.
  unfold getitem. repeat case_match; try done; apply list_elem_of_lookup_2.
Qed.

Ltac no_pr_insert :=
  unfold no_pr_url in *; rewrite ?get_insert_ne by done; auto.

Lemma node_triage_before (r : llm_reply) (st : GraphState) :
  before Ntriage st ->
  match node_triage r st with
  | Returned st' => before Nred_team st'
  | Raised _ st' => Forall pr_url_needs_patch (analyzed_findings st')
  end.
Proof.
  intros (Ha & Hf & _). unfold node_triage.
  destruct (getitem _ _) as [finding|] eqn:Hget; [|done].
  destruct (get finding "snippet"); try done.
  assert (no_pr_url finding) as Hn.
  { eapply Forall_forall in Hf; [done|]. by eapply getitem_elem_of. }
  destruct (Z.leb_spec (Z.of_nat (length (findings st))) (current_index st))
    as [Hge|Hlt].
  - (* the guard *) apply getitem_Some_lt in Hget. lia.
  - split; [|split; [done|]]; simpl.
    + apply Forall_app. split; [done|]. constructor; [|done].
      apply no_pr_url_needs_patch. no_pr_insert.
    + intros _ f. rewrite last_snoc. intros [= <-]. no_pr_insert.
Qed.

Lemma before_set_last (n : node) (st : GraphState) f f' :
  before n st -> last (analyzed_findings st) = Some f -> no_pr_url f' ->
  before Npublish (with_analyzed st (set_last (analyzed_findings st) f')).
Proof.
  intros (Ha & Hf & _) Hl Hn. split; [|split; [done|]]; simpl.
  - apply Forall_set_last; [done|]. by apply no_pr_url_needs_patch.
  - intros _ g. rewrite (last_set_last _ _ _ Hl). by intros [= <-].
Qed.

Lemma before_any (n n' : node) (st : GraphState) :
  n <> Ntriage -> before n st -> before n' st.
Proof. intros Hn (Ha & Hf & Hl). split; [done|]. split; [done|]. auto. Qed.

Lemma node_red_team_before (p : poc_outcome) (st : GraphState) :
  before Nred_team st ->
  match node_red_team p st with
  | Returned st' => before Nremediate st'
  | Raised _ st' => Forall pr_url_needs_patch (analyzed_findings st')
  end.
Proof.
  intros Hb. unfold node_red_team.
  destruct (last (analyzed_findings st)) as [finding|] eqn:Hl.
  2: { by apply (before_any Nred_team). }
  assert (no_pr_url finding) as Hn by (by apply Hb).
  case_bool_decide.
  - apply (before_any Npublish); [done|].
    eapply before_set_last; [done..|]. destruct p; no_pr_insert.
  - rewrite with_analyzed_same. by apply (before_any Nred_team).
Qed.

Lemma node_remediate_before (r : llm_reply) (st : GraphState) :
  before Nremediate st ->
  match node_remediate r st with
  | Returned st' => before Nsanity_check st'
  | Raised _ st' => Forall pr_url_needs_patch (analyzed_findings st')
  end.
Proof.
  intros Hb. unfold node_remediate.
  destruct (last (analyzed_findings st)) as [finding|] eqn:Hl.
  2: { by apply (before_any Nremediate). }
  assert (no_pr_url finding) as Hn by (by apply Hb).
  case_bool_decide; [destruct r|]; rewrite ?with_analyzed_same;
    try (by apply (before_any Nremediate)).
  apply (before_any Npublish); [done|].
  eapply before_set_last; [done..|]. no_pr_insert.
Qed.

Lemma node_sanity_check_before (db : db_outcome) (st : GraphState) :
  before Nsanity_check st ->
  match node_sanity_check db st with
  | Returned st' => before Npublish st'
  | Raised _ st' => Forall pr_url_needs_patch (analyzed_findings st')
  end.
Proof.
  intros Hb. pose proof Hb as (Ha & _).
  assert (before Npublish st) as Hb' by (by apply (before_any Nsanity_check)).
  unfold node_sanity_check.
  destruct (last (analyzed_findings st)) as [finding|] eqn:Hl; [|done].
  assert (no_pr_url finding) as Hn by (by apply Hb).
  destruct (negb _); [done|].
  destruct (finding !! "file") as [file|]; [|done].
  destruct (finding !! "snippet") as [[| | |snippet]|]; try done.
  destruct (get finding "remediation_patch") as [| | |patch];
    try by destruct (existsb _ _).
  assert (before Npublish
            (if sanity_rejects snippet patch
             then with_analyzed st
                    (set_last (analyzed_findings st)
                       (<["remediation_patch" := PNone]> finding))
             else with_analyzed st (analyzed_findings st))) as Hb''.
  { case_match; [|by rewrite with_analyzed_same].
    eapply before_set_last; [done..|]. no_pr_insert. }
  destruct (truthy (get finding "id")), db; try done. by destruct Hb''.
Qed.

Lemma node_publish_before (pr : pr_outcome) (st : GraphState) :
  before Npublish st ->
  match node_publish pr st with
  | Returned st' => before Ntriage st'
  | Raised _ st' => Forall pr_url_needs_patch (analyzed_findings st')
  end.
Proof.
  intros Hb. pose proof Hb as (Ha & Hf & _).
  assert (before Ntriage st) as Hb' by (by apply (before_any Npublish)).
  unfold node_publish.
  destruct (last (analyzed_findings st)) as [finding|] eqn:Hl; [|done].
  destruct (truthy (get finding "remediation_patch")) eqn:Ht; [|done]. simpl.
  destruct (finding !! "file"), (finding !! "message"), pr;
    rewrite ?with_analyzed_same; try done.
  split; [|split; [done|done]]. simpl.
  apply Forall_set_last; [done|].
  intros _. rewrite get_insert_ne by done. by apply truthy_not_None.
Qed.

Lemma run_node_before (n : node) (w : pass_world) (pass : nat)
    (st : GraphState) :
  before n st ->
  match run_node n w st with
  | Returned st' =>
      Forall pr_url_needs_patch (analyzed_findings st') /\
      forall n' pass', next_node n pass st' = Some (n', pass') -> before n' st'
  | Raised _ st' => Forall pr_url_needs_patch (analyzed_findings st')
  end.
Proof.
  intros Hb. destruct n; simpl.
  - pose proof (node_triage_before (w_triage w) st Hb) as H.
    destruct (node_triage _ _); [|done]. split; [apply H|].
    by intros n' pass' [= <- _].
  - pose proof (node_red_team_before (w_red_team w) st Hb) as H.
    destruct (node_red_team _ _); [|done]. split; [apply H|].
    by intros n' pass' [= <- _].
  - pose proof (node_remediate_before (w_remediate w) st Hb) as H.
    destruct (node_remediate _ _); [|done]. split; [apply H|].
    by intros n' pass' [= <- _].
  - pose proof (node_sanity_check_before (w_sanity_db w) st Hb) as H.
    destruct (node_sanity_check _ _); [|done]. split; [apply H|].
    by intros n' pass' [= <- _].
  - pose proof (node_publish_before (w_publish w) st Hb) as H.
    destruct (node_publish _ _); [|done]. split; [apply H|].
    intros n' pass'. destruct (should_continue _); [done|].
    by intros [= <- _].
Qed.

(** Stopping the run after any number of node executions leaves a state in
    which every analysed finding satisfies the invariant. *)
Lemma run_from_invariant (w : nat -> pass_world) (limit : nat) :
  forall n pass st,
    before n st ->
    Forall pr_url_needs_patch
      (analyzed_findings (outcome_state (run_from limit w n pass st).2)).
Proof.
  induction limit as [|limit IH]; intros n pass st Hb; simpl.
  - apply Hb.
  - pose proof (run_node_before n (w pass) pass st Hb) as H.
    destruct (run_node n (w pass) st) as [st'|e st']; [|done].
    destruct H as [Ha Hnext].
    destruct (next_node n pass st') as [[n' pass']|] eqn:E; [|done].
    specialize (IH n' pass' st' (Hnext _ _ eq_refl)).
    by destruct (run_from limit w n' pass' st').
Qed.

(** C1. Findings enter the graph without a [pr_url] (the normalizer never
    writes one).  Then at every point of the run, that is, in the state
    reached after any number [limit] of node executions, every analysed
    finding with a non-null [pr_url] has a non-null [remediation_patch];
    and [node_publish] returns the state unchanged when the current
    finding's patch is null or empty. *)
Theorem C1_pr_url_needs_patch (w : nat -> pass_world) (limit : nat)
    (fs : list (gmap string pyval)) (src proj : list N) :
  Forall (fun f => get f "pr_url" = PNone) fs ->
  Forall (fun f => get f "pr_url" <> PNone ->
                   get f "remediation_patch" <> PNone)
    (analyzed_findings
       (outcome_state (graph_app_invoke limit w (mkState fs 0 [] src proj)).2))
  /\
  (forall pr state,
     (forall finding,
        last (analyzed_findings state) = Some finding ->
        truthy (get finding "remediation_patch") = false) ->
     node_publish pr state = Returned state).
Proof.
  intros Hfs. split; [|apply node_publish_skips].
  apply run_from_invariant. split; [constructor|]. split; [done|]. done.
Qed.

End PrInvariant.

(** ** The loop over the findings *)

Section LoopFacts.
Import PyStr Py Graph.
Local Open Scope N_scope.

Lemma should_continue_END (state : GraphState) :
  should_continue state = END <->
  (Z.of_nat (length (findings state)) <= current_index state)%Z.
Proof.
  unfold should_continue.
  destruct (Z.leb_spec (Z.of_nat (length (findings state)))
              (current_index state)); split; (done || lia).
Qed.

Lemma ready_finding_insert (f : gmap string pyval) (k : string) (v : pyval) :
  k <> "snippet" -> k <> "file" -> k <> "remediation_patch" ->
  ready_finding f -> ready_finding (<[k := v]> f).
Proof.
  intros H1 H2 H3 ([s Hs] & Hfile & Hp). unfold ready_finding.
  rewrite !lookup_insert_ne, get_insert_ne by done. eauto.
Qed.

Lemma ready_finding_patch (f : gmap string pyval) (v : pyval) :
  str_or_falsy v -> ready_finding f ->
  ready_finding (<["remediation_patch" := v]> f).
Proof.
  intros Hv ([s Hs] & Hfile & Hp). unfold ready_finding.
  rewrite !lookup_insert_ne, get_insert_eq by done. eauto.
Qed.

Lemma node_red_team_rewrites p : rewrites_last (node_red_team p).
Proof.
  intros st l x Hl Hx. unfold node_red_team. rewrite Hl, last_snoc.
  case_bool_decide.
  - eexists. rewrite set_last_snoc. split; [done|].
    destruct p; repeat apply ready_finding_insert; done.
  - by exists x.
Qed.

Lemma node_remediate_rewrites r : rewrites_last (node_remediate r).
Proof.
  intros st l x Hl Hx. unfold node_remediate. rewrite Hl, last_snoc.
  case_bool_decide; [destruct r|]; try by exists x.
  eexists. rewrite set_last_snoc. split; [done|].
  by apply ready_finding_patch.
Qed.

Lemma node_sanity_check_rewrites : rewrites_last (node_sanity_check DbOk).
Proof.
  intros st l x Hl Hx. unfold node_sanity_check. rewrite Hl, last_snoc.
  destruct (truthy (get x "remediation_patch")) eqn:Ht; simpl.
  2: { exists x. by rewrite <- Hl, with_analyzed_same. }
  destruct Hx as ([s Hs] & [file Hfile] & Hp).
  rewrite Hfile, Hs.
  destruct (get x "remediation_patch") as [| | |patch] eqn:Hpatch;
    simpl in Hp, Ht; try congruence.
  assert (ready_finding x) as Hx.
  { split; [by exists s|]. split; [by exists file|]. by rewrite Hpatch. }
  destruct (sanity_rejects s patch).
  - rewrite set_last_snoc.
    exists (<["remediation_patch" := PNone]> x).
    split; [by destruct (truthy (get x "id"))|].
    by apply ready_finding_patch.
  - exists x. split; [by destruct (truthy (get x "id"))|done].
Qed.

Lemma node_publish_rewrites pr : rewrites_last (node_publish pr).
Proof.
  intros st l x Hl Hx. unfold node_publish. rewrite Hl, last_snoc.
  destruct (negb _).
  { exists x. by rewrite <- Hl, with_analyzed_same. }
  destruct (x !! "file"), (x !! "message"), pr; try by exists x.
  rewrite set_last_snoc. eexists. split; [done|].
  by apply ready_finding_insert.
Qed.

(** One pass over a finding the graph can read: it appends one record and
    advances the index by one. *)
Lemma run_pass_returns (w : pass_world) (st : GraphState)
    (finding : gmap string pyval) :
  getitem (findings st) (current_index st) = Some finding ->
  ready_finding finding ->
  w_sanity_db w = DbOk ->
  exists x,
    run_pass w st =
      Returned (mkState (findings st) (current_index st + 1)
                  (analyzed_findings st ++ [x])
                  (source_path st) (project st)).
Proof.
  intros Hget Hready Hdb. unfold run_pass.
  pose proof Hready as ([s Hs] & _).
  rewrite (node_triage_returns _ _ finding s Hget)
    by (unfold get; by rewrite Hs).
  simpl.
  edestruct (node_red_team_rewrites (w_red_team w)) as (x1 & -> & H1);
    [done| |].
  { repeat apply ready_finding_insert; done. }
  simpl.
  edestruct (node_remediate_rewrites (w_remediate w)) as (x2 & -> & H2);
    [done..|].
  simpl. rewrite Hdb.
  edestruct node_sanity_check_rewrites as (x3 & -> & H3); [done..|].
  simpl.
  edestruct (node_publish_rewrites (w_publish w)) as (x4 & -> & H4);
    [done..|].
  by exists x4.
Qed.

(** Five node executions are one pass. *)
Lemma run_from_pass (w : nat -> pass_world) (limit pass : nat)
    (st st' : GraphState) :
  run_pass (w pass) st = Returned st' ->
  run_from (5 + limit) w Ntriage pass st =
    match should_continue st' with
    | END => (one_pass, Returned st')
    | TRIAGE =>
        (one_pass ++ (run_from limit w Ntriage (S pass) st').1,
         (run_from limit w Ntriage (S pass) st').2)
    end.
Proof.
  unfold run_pass. intros H. simpl.
  destruct (node_triage _ st) as [st1|]; [simpl in *|done].
  destruct (node_red_team _ st1) as [st2|]; [simpl in *|done].
  destruct (node_remediate _ st2) as [st3|]; [simpl in *|done].
  destruct (node_sanity_check _ st3) as [st4|]; [simpl in *|done].
  rewrite H. destruct (should_continue st'); [done|].
  by destruct (run_from limit w Ntriage (S pass) st').
Qed.

Lemma getitem_nat {A} (l : list A) (i : nat) :
  getitem l (Z.of_nat i) = l !! i.
Proof.
  unfold getitem. destruct (Z.ltb_spec (Z.of_nat i) 0) as [Hi|Hi]; [lia|].
  by rewrite Nat2Z.id.
Qed.

(** From a state that has processed [i] findings, [n] passes process the
    remaining [n] findings. *)
Lemma run_remaining (w : nat -> pass_world) :
  (forall k, w_sanity_db (w k) = DbOk) ->
  forall n i pass limit st,
    (i + n)%nat = length (findings st) ->
    current_index st = Z.of_nat i ->
    length (analyzed_findings st) = i ->
    Forall ready_finding (findings st) ->
    (0 < n)%nat -> (5 * n <= limit)%nat ->
    exists final,
      run_from limit w Ntriage pass st
        = (concat (repeat one_pass n), Returned final) /\
      run_passes w pass n st = Returned final /\
      findings final = findings st /\
      current_index final = Z.of_nat (length (findings st)) /\
      length (analyzed_findings final) = length (findings st).
Proof.
  intros Hdb. induction n as [|n IH]; intros i pass limit st Hlen Hidx Han
    Hready Hn Hlimit; [lia|].
  destruct (lookup_lt_is_Some_2 (findings st) i) as [finding Hf]; [lia|].
  destruct (run_pass_returns (w pass) st finding) as [x Hpass].
  { by rewrite Hidx, getitem_nat. }
  { eapply Forall_forall; [done|]. by eapply list_elem_of_lookup_2. }
  { apply Hdb. }
  destruct limit as [|[|[|[|[|limit]]]]]; try lia.
  change (S (S (S (S (S limit))))) with (5 + limit)%nat.
  rewrite (run_from_pass _ _ _ _ _ Hpass). simpl run_passes. rewrite Hpass.
  simpl and_then.
  set (st' := mkState _ _ _ _ _) in *.
  destruct n as [|n].
  - assert (should_continue st' = END) as ->.
    { apply should_continue_END. simpl. lia. }
    exists st'. simpl. rewrite length_app. simpl.
    repeat split; try done; lia.
  - assert (should_continue st' = TRIAGE) as ->.
    { destruct (should_continue st') eqn:E; [|done].
      apply should_continue_END in E. simpl in E. lia. }
    destruct (IH (S i) (S pass) limit st') as (final & Hrun & Hp & H1 & H2 & H3);
      try done; simpl; try lia.
    { rewrite length_app. simpl. lia. }
    exists final. rewrite Hrun. simpl. repeat split; done.
Qed.

(** The state after [j] passes: [j] findings processed, [j] records. *)
Lemma run_passes_prefix (w : nat -> pass_world) :
  (forall k, w_sanity_db (w k) = DbOk) ->
  forall j i pass st,
    (i + j <= length (findings st))%nat ->
    current_index st = Z.of_nat i ->
    length (analyzed_findings st) = i ->
    Forall ready_finding (findings st) ->
    exists st_j,
      run_passes w pass j st = Returned st_j /\
      findings st_j = findings st /\
      current_index st_j = Z.of_nat (i + j) /\
      length (analyzed_findings st_j) = (i + j)%nat.
Proof.
  intros Hdb. induction j as [|j IH]; intros i pass st Hlen Hidx Han Hready.
  { exists st. rewrite Nat.add_0_r. by simpl. }
  destruct (lookup_lt_is_Some_2 (findings st) i) as [finding Hf]; [lia|].
  destruct (run_pass_returns (w pass) st finding) as [x Hpass].
  { by rewrite Hidx, getitem_nat. }
  { eapply Forall_forall; [done|]. by eapply list_elem_of_lookup_2. }
  { apply Hdb. }
  simpl. rewrite Hpass. simpl.
  set (st' := mkState _ _ _ _ _) in *.
  destruct (IH (S i) (S pass) st') as (st_j & Hrun & H1 & H2 & H3);
    try done; simpl; try lia.
  { rewrite length_app. simpl. lia. }
  exists st_j. rewrite Hrun. repeat split; try done.
  - rewrite H2. f_equal. lia.
  - rewrite H3. lia.
Qed.

(** C10. On a non-empty list of findings that the graph can read, with the
    telemetry store accepting writes and a recursion limit of at least five
    node executions per finding: [node_triage] appends one record and adds
    one to [current_index] in every pass, so after [j] passes both
    [len(analyzed_findings)] and [current_index] are [j];
    [should_continue] answers END exactly when
    [current_index >= len(findings)]; the run consists of exactly
    [len(findings)] passes and returns. *)
Theorem C10_loop_terminates (w : nat -> pass_world) (limit : nat)
    (fs : list (gmap string pyval)) (src proj : list N) :
  fs <> [] ->
  Forall ready_finding fs ->
  (forall k, w_sanity_db (w k) = DbOk) ->
  (5 * length fs < limit)%nat ->
  (exists final,
     graph_app_invoke limit w (mkState fs 0 [] src proj)
       = (concat (repeat one_pass (length fs)), Returned final) /\
     run_passes w 0 (length fs) (mkState fs 0 [] src proj) = Returned final /\
     current_index final = Z.of_nat (length fs) /\
     length (analyzed_findings final) = length fs /\
     should_continue final = END) /\
  (forall j, (j <= length fs)%nat ->
     exists st_j,
       run_passes w 0 j (mkState fs 0 [] src proj) = Returned st_j /\
       current_index st_j = Z.of_nat j /\
       length (analyzed_findings st_j) = j /\
       (should_continue st_j = END <-> j = length fs)) /\
  (forall r st finding snippet,
     getitem (findings st) (current_index st) = Some finding ->
     get finding "snippet" = PStr snippet ->
     exists st',
       node_triage r st = Returned st' /\
       current_index st' = (current_index st + 1)%Z /\
       length (analyzed_findings st')
         = S (length (analyzed_findings st))) /\
  (forall st,
     should_continue st = END <->
     (Z.of_nat (length (findings st)) <= current_index st)%Z).
Proof.
  intros Hne Hready Hdb Hlimit.
  assert (0 < length fs)%nat as Hpos by (destruct fs; [done|simpl; lia]).
  split; [|split; [|split]].
  - destruct (run_remaining w Hdb (length fs) 0 0 limit
                (mkState fs 0 [] src proj))
      as (final & Hrun & Hp & H1 & H2 & H3); try done; try lia.
    exists final. repeat split; try done.
    apply should_continue_END. rewrite H1, H2. simpl. lia.
  - intros j Hj.
    destruct (run_passes_prefix w Hdb j 0 0 (mkState fs 0 [] src proj))
      as (st_j & Hrun & H1 & H2 & H3); try done.
    exists st_j. repeat split; try done.
    + rewrite should_continue_END, H1, H2. simpl. lia.
    + intros ->. apply should_continue_END. rewrite H1, H2. simpl. lia.
  - intros r st finding snippet Hget Hsn.
    eexists. split; [by eapply node_triage_returns|]. simpl.
    split; [done|]. rewrite length_app. simpl. lia.
  - apply should_continue_END.
Qed.

End LoopFacts.

(** ** The sanity check *)

Section SanityFacts.
Import PyStr Py Graph SpecWords.
Local Open Scope N_scope.

(** The code's rejection condition, read off its three tests. *)
Lemma sanity_rejects_iff (snippet patch : list N) :
  sanity_rejects snippet patch = true <->
  (exists w, w ∈ CRITICAL_MODULES /\ contains w snippet = true /\
             contains w patch = false) \/
  strip patch = [] \/
  ((length (splitlines patch) < 2)%nat /\
   (10 < length (splitlines snippet))%nat).
Proof.
  unfold sanity_rejects, deleted_criticals, is_empty, is_wiped.
  destruct (List.filter _ CRITICAL_MODULES) as [|w ws] eqn:E.
  - rewrite orb_true_iff, andb_true_iff, Nat.eqb_eq, !Nat.ltb_lt,
      length_zero_iff_nil.
    split; [tauto|]. intros [(w & Hin & Hs & Hp)|H]; [|tauto].
    exfalso. assert (In w []) as [].
    rewrite <- E. apply List.filter_In. split; [by apply list_elem_of_In|].
    by rewrite Hs, Hp.
  - split; [intros _|done]. left. exists w.
    assert (In w (w :: ws)) as Hin by (by left).
    rewrite <- E in Hin. apply List.filter_In in Hin as [Hin Hc].
    apply andb_true_iff in Hc as [Hs Hp]. apply negb_true_iff in Hp.
    split; [by apply list_elem_of_In|done].
Qed.

(** [node_sanity_check] on a finding with a string patch, a string snippet
    and a file. *)
Lemma node_sanity_check_str (db : db_outcome) (st : GraphState)
    (f : gmap string pyval) (snippet patch : list N) :
  last (analyzed_findings st) = Some f ->
  is_Some (f !! "file") ->
  f !! "snippet" = Some (PStr snippet) ->
  f !! "remediation_patch" = Some (PStr patch) ->
  outcome_state (node_sanity_check db st) =
    match patch with
    | [] => st
    | _ =>
        if sanity_rejects snippet patch
        then with_analyzed st
               (set_last (analyzed_findings st)
                  (<["remediation_patch" := PNone]> f))
        else st
    end /\
  (db = DbOk \/ patch = [] ->
   node_sanity_check db st
     = Returned (outcome_state (node_sanity_check db st))).
Proof.
  intros Hl [file Hfile] Hs Hp.
  assert (get f "remediation_patch" = PStr patch) as Hg.
  { unfold get. by rewrite Hp. }
  unfold node_sanity_check. rewrite Hl, Hg.
  destruct patch as [|c patch]; simpl; [done|].
  rewrite Hfile, Hs, with_analyzed_same.
  destruct (sanity_rejects snippet (c :: patch)), (truthy (get f "id")), db;
    simpl; split; try done; intros [?|?]; done.
Qed.

(** C2 (as amended). For a finding that enters the sanity check with a file,
    a string snippet and a non-empty patch string: the patch is set to null
    if some token of {auth, jwt, session, encrypt} occurs in the snippet and
    that same token does not occur in the patch, or the patch is
    whitespace-only, or the patch has fewer than 2 lines while the snippet
    has more than 10; otherwise the state is left as it was.  An empty patch
    string is skipped: the state is returned unchanged. *)
Theorem C2_sanity_check (db : db_outcome) (st : GraphState)
    (f : gmap string pyval) (snippet patch : list N) :
  last (analyzed_findings st) = Some f ->
  is_Some (f !! "file") ->
  f !! "snippet" = Some (PStr snippet) ->
  f !! "remediation_patch" = Some (PStr patch) ->
  let rejected :=
    (exists w, w ∈ CRITICAL_MODULES /\ contains w snippet = true /\
               contains w patch = false) \/
    strip patch = [] \/
    ((length (splitlines patch) < 2)%nat /\
     (10 < length (splitlines snippet))%nat) in
  (patch <> [] -> rejected ->
   outcome_state (node_sanity_check db st) =
     with_analyzed st
       (set_last (analyzed_findings st) (<["remediation_patch" := PNone]> f))
   /\
   exists f',
     last (analyzed_findings (outcome_state (node_sanity_check db st)))
       = Some f' /\ get f' "remediation_patch" = PNone) /\
  (patch <> [] -> ~ rejected ->
   outcome_state (node_sanity_check db st) = st) /\
  (patch = [] -> node_sanity_check db st = Returned st) /\
  (db = DbOk ->
   node_sanity_check db st
     = Returned (outcome_state (node_sanity_check db st))).
Proof.
  intros Hl Hfile Hs Hp rejected.
  destruct (node_sanity_check_str db st f snippet patch Hl Hfile Hs Hp)
    as [Hstate Hret].
  pose proof (sanity_rejects_iff snippet patch) as Hiff.
  fold rejected in Hiff.
  split; [|split; [|split]].
  - intros Hne Hrej. apply Hiff in Hrej.
    destruct patch; [done|]. rewrite Hrej in Hstate. rewrite Hstate.
    split; [done|]. eexists. simpl.
    rewrite (last_set_last _ _ _ Hl). split; [done|].
    by rewrite get_insert_eq.
  - intros Hne Hrej. destruct patch; [done|].
    destruct (sanity_rejects snippet (n :: patch)); [|done].
    exfalso. by apply Hrej, Hiff.
  - intros ->. rewrite Hret by auto. by rewrite Hstate.
  - intros ->. by apply Hret; left.
Qed.

(** C2 (as stated) fails: the snippet names [auth] and [jwt], the patch
    keeps [jwt] only; the specification's rule lets the patch through, the
    code nulls it. *)
Lemma C2_counterexample : ~ spec_sanity_check.
Proof.
  intros H.
  set (f := <["remediation_patch" := PStr (cps "import jwt")]>
              (<["snippet" := PStr (cps "import auth, jwt")]>
                 {["file" := PStr (cps "app.py")]}) : gmap string pyval).
  destruct (H DbOk (mkState [] 0 [f] [] []) f
              (cps "import auth, jwt") (cps "import jwt"))
    as (f' & Hlast & Hpatch); try done.
  vm_compute in Hlast. injection Hlast as <-.
  vm_compute in Hpatch. discriminate Hpatch.
Qed.

End SanityFacts.

(** ** Path cleaning *)

Section CleanPathFacts.
Import PyStr Py Parser SpecWords.
Local Open Scope N_scope.

Lemma lstrip_by_length (p : N -> bool) (s : list N) :
  (length (lstrip_by p s) <= length s)%nat.
Proof.
  induction s as [|c s IH]; simpl; [done|]. destruct (p c); simpl; lia.
Qed.

Lemma delete_all_aux_length (old : list N) (s : list N) :
  forall skip,
    (length (delete_all_aux old skip s) <= length s - Nat.min skip (length s))%nat.
Proof.
  induction s as [|c s IH]; intros skip; simpl; [done|].
  destruct skip as [|k].
  - destruct (startswith old (c :: s)).
    + specialize (IH (Nat.pred (length old))). lia.
    + specialize (IH O). simpl. lia.
  - specialize (IH k). lia.
Qed.

(** Deleting a scheme that is there shortens the path. *)
Lemma delete_all_shorter (old s : list N) :
  startswith old s = true -> old <> [] ->
  (length (delete_all old s) < length s)%nat.
Proof.
  intros H Hold. unfold delete_all. destruct s as [|c s].
  - destruct old; [done|discriminate H].
  - simpl. rewrite H.
    pose proof (delete_all_aux_length old s (Nat.pred (length old))). simpl. lia.
Qed.

Lemma after_id_length (s rest : list N) :
  after_id s = Some rest -> (length rest <= length s)%nat.
Proof.
  unfold after_id.
  destruct (span_length _ s) as [|n] eqn:E; [done|].
  destruct (drop (S n) s) as [|c r] eqn:D; [done|]. intros [= <-].
  assert (length (drop (S n) s) = S (length r)) as Hd by (by rewrite D).
  rewrite length_drop in Hd. lia.
Qed.

Lemma after_prefix_length (prefix s rest : list N) :
  after_prefix prefix s = Some rest -> (length rest <= length s)%nat.
Proof.
  unfold after_prefix. destruct (startswith prefix s); [|done].
  intros H. apply after_id_length in H. rewrite length_drop in H. lia.
Qed.

Lemma re_sub_tmp_prefix_length (s : list N) :
  (length (re_sub_tmp_prefix s) <= length s)%nat.
Proof.
  unfold re_sub_tmp_prefix.
  destruct (after_prefix (cps "/tmp/scans/") s) eqn:E1.
  { by eapply after_prefix_length. }
  destruct (after_prefix (cps "/tmp/uploads/") s) eqn:E2; [|done].
  by eapply after_prefix_length.
Qed.

Lemma lstrip_slash_no_sep (s : list N) :
  startswith [47] (lstrip_slash s) = false.
Proof.
  unfold lstrip_slash. destruct (lstrip_by _ s) as [|c rest] eqn:E; [done|].
  apply lstrip_by_head in E. unfold startswith. by rewrite E.
Qed.

(** A cleaned path does not begin with a separator. *)
Lemma clean_path_no_sep (p : list N) :
  startswith [47] (_clean_path p) = false.
Proof.
  unfold _clean_path. destruct p as [|c p]; [done|].
  change (cps "/") with [47].
  destruct (startswith [47] (re_sub_tmp_prefix _)) eqn:E; [|done].
  apply lstrip_slash_no_sep.
Qed.

Lemma startswith_sep_first (w s : list N) :
  startswith [47] s = false -> startswith (47 :: w) s = false.
Proof.
  destruct s as [|c s]; [done|]. unfold startswith at 1.
  rewrite andb_true_r. intros H. cbn [startswith]. by rewrite H.
Qed.

(** A path without a leading separator and without the scheme is a fixed
    point. *)
Lemma clean_path_fixed (c : list N) :
  startswith [47] c = false ->
  startswith (cps "file://") c = false ->
  _clean_path c = c.
Proof.
  intros Hsep Hscheme. unfold _clean_path. destruct c as [|a c]; [done|].
  rewrite Hscheme. unfold re_sub_tmp_prefix, after_prefix.
  change (cps "/tmp/scans/") with (47 :: cps "tmp/scans/").
  change (cps "/tmp/uploads/") with (47 :: cps "tmp/uploads/").
  rewrite !startswith_sep_first by done.
  change (cps "/") with [47]. by rewrite Hsep.
Qed.

(** A path that begins with the scheme gets shorter. *)
Lemma clean_path_shorter (c : list N) :
  startswith (cps "file://") c = true ->
  (length (_clean_path c) < length c)%nat.
Proof.
  intros Hscheme. unfold _clean_path. destruct c as [|a c]; [done|].
  rewrite Hscheme.
  assert (length (delete_all (cps "file://") (a :: c)) < length (a :: c))%nat
    as H1 by (by apply delete_all_shorter).
  pose proof (re_sub_tmp_prefix_length
                (delete_all (cps "file://") (a :: c))) as H2.
  pose proof (lstrip_by_length (N.eqb 47)
                (re_sub_tmp_prefix (delete_all (cps "file://") (a :: c))))
    as H3.
  unfold lstrip_slash. destruct (startswith (cps "/") _); lia.
Qed.

(** C7 (as amended). The result of path cleaning never begins with a
    separator, hence with neither [/tmp/scans/] nor [/tmp/uploads/]; and
    cleaning the result again changes nothing exactly when the result does
    not itself begin with [file://]. *)
Theorem C7_clean_path (p : list N) :
  startswith (cps "/") (_clean_path p) = false /\
  startswith (cps "/tmp/scans/") (_clean_path p) = false /\
  startswith (cps "/tmp/uploads/") (_clean_path p) = false /\
  (_clean_path (_clean_path p) = _clean_path p <->
   startswith (cps "file://") (_clean_path p) = false).
Proof.
  pose proof (clean_path_no_sep p) as Hsep.
  split; [done|].
  split; [by apply (startswith_sep_first (cps "tmp/scans/"))|].
  split; [by apply (startswith_sep_first (cps "tmp/uploads/"))|].
  split.
  - intros Heq. destruct (startswith (cps "file://") (_clean_path p)) eqn:E;
      [|done].
    apply clean_path_shorter in E. rewrite Heq in E. lia.
  - by apply clean_path_fixed.
Qed.

(** C7 (as stated) fails: [/file://x] is cleaned to [file://x], and that to
    [x]. *)
Lemma C7_counterexample : ~ spec_clean_path.
Proof.
  intros H. destruct (H (cps "/file://x")) as [Heq _].
  vm_compute in Heq. discriminate Heq.
Qed.

End CleanPathFacts.

(** ** Snippets *)

Section SnippetFacts.
Import PyStr Py Fs Parser SpecWords.
Local Open Scope Z_scope.

Variable int_of_str : list N -> option Z.

Lemma slice_window (lines : list (list N)) (line : Z) :
  -4 <= line ->
  slice lines (Z.max 0 (line - 1 - 5))
    (Z.min (Z.of_nat (length lines)) (line - 1 + 5))
  = window lines line.
Proof.
  intros Hline. unfold slice, slice_bound, window.
  destruct (Z.ltb_spec (Z.max 0 (line - 1 - 5)) 0) as [H1|H1]; [lia|].
  destruct (Z.ltb_spec (Z.min (Z.of_nat (length lines)) (line - 1 + 5)) 0)
    as [H2|H2]; [lia|].
  replace (line - 1 - 5) with (line - 6) by lia.
  replace (line - 1 + 5) with (line + 4) by lia.
  set (len := Z.of_nat (length lines)).
  rewrite (Z.min_l (Z.min len (line + 4)) len) by lia.
  destruct (Z.le_gt_cases (Z.max 0 (line - 6)) len) as [Hle|Hgt].
  - by rewrite (Z.min_l (Z.max 0 (line - 6)) len) by lia.
  - rewrite (Z.min_r (Z.max 0 (line - 6)) len) by lia.
    rewrite !drop_ge by lia. by rewrite !take_nil.
Qed.

(** The lines of the window are lines of the file, numbered (from 1) within
    5 before and 4 after the reported line. *)
Lemma window_lookup (lines : list (list N)) (line : Z) (i : nat) x :
  window lines line !! i = Some x ->
  exists n : nat,
    lines !! n = Some x /\
    line - 5 <= Z.of_nat n + 1 <= line + 4 /\
    1 <= Z.of_nat n + 1 <= Z.of_nat (length lines).
Proof.
  unfold window. intros H.
  apply lookup_take_Some in H as [H Hi]. rewrite lookup_drop in H.
  exists (Z.to_nat (Z.max 0 (line - 6)) + i)%nat. split; [done|].
  apply lookup_lt_Some in H. lia.
Qed.

Lemma extract_snippet_window (lines : list (list N)) (line : Z) :
  -4 <= line ->
  extract_snippet lines (line - 1) =
    if blank (concat (window lines line)) then SNIPPET_EMPTY
    else concat (window lines line).
Proof. intros H. unfold extract_snippet. by rewrite slice_window. Qed.

(** A reported line more than 5 past the end of the file gets the
    empty-snippet placeholder. *)
Lemma extract_snippet_past_end (lines : list (list N)) (line : Z) :
  Z.of_nat (length lines) + 5 < line ->
  extract_snippet lines (line - 1) = SNIPPET_EMPTY.
Proof.
  intros H. rewrite extract_snippet_window by lia. unfold window.
  replace (_ - _)%nat with 0%nat by lia. by rewrite take_0.
Qed.

Lemma placeholders_distinct :
  SNIPPET_NOT_FOUND <> SNIPPET_FILE_EMPTY /\
  SNIPPET_NOT_FOUND <> SNIPPET_EMPTY /\
  SNIPPET_FILE_EMPTY <> SNIPPET_EMPTY.
Proof. repeat split; by vm_compute. Qed.

Lemma parser_populate_snippet_total fs source_root f file :
  f !! "file" = Some (PStr file) ->
  exists f', Parser.populate_snippet fs source_root f = (f', None) /\
             with_snippet f f'.
Proof.
  intros Hfile. unfold Parser.populate_snippet.
  rewrite lookup_insert_ne, Hfile by done.
  destruct (fs _) as [| |[|l lines]]; try (eexists; split; [done|]);
    try (by eexists).
  - eexists. by rewrite insert_insert_eq.
  - destruct (Parser.line_minus_one _);
      eexists; (split; [done|]); eexists; [by rewrite insert_insert_eq|done].
Qed.

Lemma utils_populate_snippet_total fs source_root f file :
  f !! "file" = Some (PStr file) ->
  exists f', Utils.populate_snippet int_of_str fs source_root f = (f', None) /\
             with_snippet f f'.
Proof.
  intros Hfile. unfold Utils.populate_snippet.
  rewrite lookup_insert_ne, Hfile by done.
  destruct (fs _) as [| |[|l lines]]; try (eexists; split; [done|]);
    try (by eexists).
  - eexists. by rewrite insert_insert_eq.
  - destruct (Utils.line_minus_one _ _);
      eexists; (split; [done|]); eexists; [by rewrite insert_insert_eq|done].
Qed.

Lemma parser_populate_snippets_total fs source_root findings :
  Forall has_file findings ->
  exists populated,
    Parser.populate_snippets fs findings source_root = (populated, None) /\
    Forall2 with_snippet findings populated.
Proof.
  induction 1 as [|f findings [file Hf] _ (populated & IH & Hall)]; simpl.
  { by exists []. }
  destruct (parser_populate_snippet_total fs source_root f file Hf)
    as (f' & -> & Hw).
  rewrite IH. exists (f' :: populated). split; [done|]. by constructor.
Qed.

Lemma utils_populate_snippets_total fs source_root findings :
  Forall has_file findings ->
  exists populated,
    Utils.populate_snippets int_of_str fs findings source_root
      = (populated, None) /\
    Forall2 with_snippet findings populated.
Proof.
  induction 1 as [|f findings [file Hf] _ (populated & IH & Hall)]; simpl.
  { by exists []. }
  destruct (utils_populate_snippet_total fs source_root f file Hf)
    as (f' & -> & Hw).
  rewrite IH. exists (f' :: populated). split; [done|]. by constructor.
Qed.

(** C6 (as amended). Snippet population never leaves a finding without a
    snippet: on findings that name their file it returns, and every finding
    is the one given with a string snippet.  The file is read at
    [source_root + file]; a missing or unreadable file gives the not-found
    placeholder, a file without lines the empty-file placeholder.  For a
    file with lines and a reported line [line >= -4], the window's bounds
    (not the reported line) are clamped to the file: the snippet is the
    text of the lines numbered from [line - 5] to at most [line + 4] that
    the file has, or the empty-snippet placeholder when that text is blank,
    as it is for every line more than 5 past the end of the file.  The three
    placeholders differ from one another. *)
Theorem C6_snippet_population (fs : list N -> file_state)
    (source_root : list N) :
  (forall findings,
     Forall has_file findings ->
     (exists populated,
        Parser.populate_snippets fs findings source_root = (populated, None)
        /\ Forall2 with_snippet findings populated) /\
     (exists populated,
        Utils.populate_snippets int_of_str fs findings source_root
          = (populated, None)
        /\ Forall2 with_snippet findings populated)) /\
  (forall f file,
     f !! "file" = Some (PStr file) ->
     let path := os_path_join source_root file in
     let s1 := (Parser.populate_snippet fs source_root f).1 !! "snippet" in
     let s2 :=
       (Utils.populate_snippet int_of_str fs source_root f).1 !! "snippet" in
     (fs path = Missing \/ fs path = Unreadable ->
      s1 = Some (PStr SNIPPET_NOT_FOUND) /\ s2 = s1) /\
     (fs path = Lines [] ->
      s1 = Some (PStr SNIPPET_FILE_EMPTY) /\ s2 = s1) /\
     (forall lines line,
        fs path = Lines lines -> lines <> [] ->
        f !! "line" = Some (PInt line) -> -4 <= line ->
        s1 = Some (PStr (if blank (concat (window lines line))
                         then SNIPPET_EMPTY
                         else concat (window lines line))) /\
        s2 = s1 /\
        (forall (i : nat) x,
           window lines line !! i = Some x ->
           exists n : nat,
             lines !! n = Some x /\
             line - 5 <= Z.of_nat n + 1 <= line + 4 /\
             1 <= Z.of_nat n + 1 <= Z.of_nat (length lines)) /\
        (Z.of_nat (length lines) + 5 < line ->
         s1 = Some (PStr SNIPPET_EMPTY)))) /\
  (SNIPPET_NOT_FOUND <> SNIPPET_FILE_EMPTY /\
   SNIPPET_NOT_FOUND <> SNIPPET_EMPTY /\
   SNIPPET_FILE_EMPTY <> SNIPPET_EMPTY).
Proof.
  split; [|split; [|apply placeholders_distinct]].
  { intros findings H. split.
    - by apply parser_populate_snippets_total.
    - by apply utils_populate_snippets_total. }
  intros f file Hfile path s1 s2. subst s1 s2.
  unfold Parser.populate_snippet, Utils.populate_snippet.
  rewrite !lookup_insert_ne, Hfile by done. fold path.
  split; [|split].
  - intros [-> | ->]; cbn [fst]; by rewrite lookup_insert_eq.
  - intros ->. cbn [fst]. by rewrite lookup_insert_eq.
  - intros lines line -> Hne Hline Hge.
    destruct lines as [|l lines]; [done|].
    unfold Parser.line_minus_one, Utils.line_minus_one.
    rewrite !lookup_insert_ne, Hline by done. cbn [fst].
    rewrite !lookup_insert_eq.
    rewrite extract_snippet_window by done.
    split; [done|]. split; [done|]. split; [apply window_lookup|].
    intros Hpast. f_equal. f_equal.
    rewrite <- (extract_snippet_window (l :: lines) line) by done.
    by apply extract_snippet_past_end.
Qed.

(** C6 (as stated) fails: in a file of three lines a finding reported at
    line 20 gets the empty-snippet placeholder, not the lines around the
    clamped line 3. *)
Lemma C6_counterexample : ~ spec_populate_snippet.
Proof.
  intros H.
  specialize (H (fun _ => Lines [[97; 10]; [98; 10]; [99; 10]]%N) []
                (<["line" := PInt 20]> {["file" := PStr (cps "app.py")]})
                (cps "app.py") [[97; 10]; [98; 10]; [99; 10]]%N 20).
  vm_compute in H. by specialize (H eq_refl eq_refl eq_refl ltac:(done)).
Qed.

End SnippetFacts.

(** ** The static analyzer's targets *)

Section ScannerFacts.
Import PyStr Py Fs Scanner.
Local Open Scope N_scope.

(** The workspace path ends in [_src], so it is not empty and does not end
    with a separator. *)
Lemma shared_src_dir_last (sid : list N) :
  last (shared_src_dir sid) = Some 99.
Proof.
  unfold shared_src_dir, os_path_join.
  change (cps "_src") with ([95; 115; 114] ++ [99]).
  destruct (startswith _ _).
  - by rewrite app_assoc, last_snoc.
  - change SCAN_DIR with [47; 116; 109; 112; 47; 115; 99; 97; 110; 115].
    cbv iota. change (ends_with_sep _) with false. cbv iota.
    rewrite !app_assoc. apply last_snoc.
Qed.

(** Joining a sanitized relative path to the workspace puts it under the
    workspace. *)
Lemma join_workspace (sid f : list N) :
  os_path_join (shared_src_dir sid) (lstrip_slash f) =
  shared_src_dir sid ++ cps "/" ++ lstrip_slash f.
Proof.
  unfold os_path_join. change (cps "/") with [47].
  rewrite lstrip_slash_no_sep.
  pose proof (shared_src_dir_last sid) as Hl.
  unfold ends_with_sep. rewrite Hl.
  by destruct (shared_src_dir sid).
Qed.

Lemma target_files_filter (pe : list N -> bool) (sid : list N)
    (changed : list (list N)) :
  target_files pe sid changed =
  List.filter pe
    (map (fun f => shared_src_dir sid ++ cps "/" ++ lstrip_slash f) changed).
Proof.
  induction changed as [|f changed IH]; [done|].
  cbn [target_files map List.filter]. rewrite join_workspace, IH.
  by destruct (pe _).
Qed.

(** C8. In delta mode, when the workspace copy did not fail, the static
    analyzer is launched on exactly the paths [workspace/f'], [f'] a changed
    file without its leading separators, that exist in the workspace, in
    the order given; when none exists its target is the workspace
    directory, as in a full scan; the other tools are launched all the
    same. *)
Theorem C8_delta_targets (w : scan_world) (target_url : option (list N))
    (extra_rules changed_files : list (list N)) :
  changed_files <> [] ->
  src_dir_present w = true \/ copy_raises w = false ->
  let workspace := shared_src_dir (scan_id w) in
  let existing :=
    List.filter (path_exists w)
      (map (fun f => workspace ++ cps "/" ++ lstrip_slash f) changed_files) in
  let targets := match existing with [] => [workspace] | _ => existing end in
  launched (run_scan w target_url extra_rules changed_files) =
    [("semgrep", semgrep_options (scan_id w) extra_rules ++ targets, [0%Z]);
     ("gitleaks", gitleaks_cmd (scan_id w) changed_files, [0%Z]);
     ("trivy", trivy_cmd (scan_id w), [0%Z])]
    ++ match target_url with
       | None | Some [] => []
       | Some url => [("zap", zap_cmd (scan_id w) url, [0; 1; 2]%Z)]
       end
  /\
  (existing = [] ->
   semgrep_cmd (path_exists w) (scan_id w) extra_rules changed_files =
   semgrep_cmd (path_exists w) (scan_id w) extra_rules []).
Proof.
  intros Hne Hcopy workspace existing targets.
  assert (negb (src_dir_present w) && copy_raises w = false) as Hgo.
  { destruct Hcopy as [-> | ->]; [done|apply andb_false_r]. }
  unfold run_scan. rewrite Hgo. cbn [launched]. unfold tasks.
  rewrite map_app. cbn [map fst snd].
  assert (semgrep_cmd (path_exists w) (scan_id w) extra_rules changed_files
          = semgrep_options (scan_id w) extra_rules ++ targets) as Hcmd.
  { unfold semgrep_cmd. destruct changed_files as [|f rest]; [done|].
    rewrite target_files_filter. fold workspace. fold existing.
    subst targets. by destruct existing. }
  rewrite Hcmd. split.
  - f_equal. by destruct target_url as [[|c url]|].
  - intros Hex. subst targets. by rewrite Hex.
Qed.

End ScannerFacts.

(** ** Readiness *)

Section ReadinessFacts.
Import PyStr Py Fs Graph Logic SpecWords.
Local Open Scope Z_scope.

(** Services that never both answer 200, with a clock that advances by the
    5 seconds slept between rounds: polling gives up within 62 rounds. *)
Lemma poll_from_times_out (w : ready_world) :
  (forall k, analysis_ready w k && remediation_ready w k = false) ->
  start_time w <= time_at w O ->
  (forall k, time_at w k + 5000 <= time_at w (S k)) ->
  forall rounds k,
    (k <= 61)%nat -> (62 <= rounds + k)%nat ->
    poll_from rounds w k = Some false.
Proof.
  intros Hnever H0 Hsleep.
  assert (forall k, start_time w + 5000 * Z.of_nat k <= time_at w k) as Hclock.
  { induction k as [|k IH]; [lia|]. specialize (Hsleep k). lia. }
  induction rounds as [|rounds IH]; intros k Hk Hr; [lia|].
  simpl. rewrite Hnever.
  destruct (Z.ltb_spec (end_time w) (time_at w k)) as [Hlate|Hearly]; [done|].
  specialize (Hclock k). unfold end_time, timeout_minutes in Hearly.
  apply IH; lia.
Qed.

Lemma run_brain_background_not_ready int_of_str rounds bw scan_id project
    findings :
  ensure_services_ready rounds (readiness bw) = Some false ->
  run_brain_background int_of_str rounds bw scan_id project findings
    = Some [StatusSet failed].
Proof. intros H. unfold run_brain_background. by rewrite H. Qed.

(** C3 (as amended). When the dependent services do not all report ready
    within the polling budget, [run_brain_background] marks the scan failed
    and does nothing else: no workspace, no snippets, no persisted finding,
    no workflow.  In the full scan job the readiness check comes after the
    scanner service was called and its reports were parsed: the analyzers
    have been launched by then, and the job ends with the scan marked
    failed.  Services that never answer and a clock advancing 5 seconds per
    round make the polling give up within 62 rounds. *)
Theorem C3_readiness_timeout int_of_str (rounds : nat) :
  (forall bw scan_id project findings,
     ensure_services_ready rounds (readiness bw) = Some false ->
     run_brain_background int_of_str rounds bw scan_id project findings
       = Some [StatusSet failed]) /\
  (forall w project path md scan_id reports,
     ensure_services_ready rounds (readiness (brain w)) = Some false ->
     path_present w = true ->
     new_scan_id w = Some scan_id ->
     clone_raises w = false ->
     scanner_reports w = Some reports ->
     exists before_scan target changed cloned,
       perform_scan_background int_of_str rounds w project path md =
         Some (ScanRowCreated scan_id :: before_scan
               ++ [AnalyzersLaunched target changed]
               ++ map ReportParsed reports
               ++ [StatusSet analyzing; StatusSet failed]
               ++ job_cleanup w path cloned) /\
       Forall (fun e => e = GitClone \/ e = SandboxDeploy \/
                        exists files, e = ChangedFilesDetected files)
         before_scan) /\
  (forall w,
     (forall k, analysis_ready w k && remediation_ready w k = false) ->
     start_time w <= time_at w O ->
     (forall k, time_at w k + 5000 <= time_at w (S k)) ->
     (62 <= rounds)%nat ->
     ensure_services_ready rounds w = Some false).
Proof.
  split; [|split].
  - intros. by apply run_brain_background_not_ready.
  - intros w project path md scan_id reports Hready Hpath Hid Hclone Hrep.
    unfold perform_scan_background.
    rewrite Hpath, Hid, Hclone, andb_false_r, Hrep. cbn [negb].
    rewrite (run_brain_background_not_ready _ _ _ _ _ _ Hready).
    set (needs_clone := _ && bool_decide (path = cps "/app")).
    set (clone := if needs_clone then [GitClone] else []).
    set (detect := match changed_files md, detected_changes w with
                   | [], _ :: _ => [ChangedFilesDetected (detected_changes w)]
                   | _, _ => []
                   end).
    destruct (match match target_url md with
                    | None | Some [] => None
                    | Some url => Some url
                    end, deployment w with
              | None, Some (Some url) => ([SandboxDeploy], Some url)
              | None, Some None => ([SandboxDeploy], target_url md)
              | _, _ => ([], target_url md)
              end) as [deploy target] eqn:Hdeploy.
    exists (clone ++ detect ++ deploy), target,
      (match changed_files md with [] => detected_changes w | given => given end),
      needs_clone.
    split.
    + f_equal. cbn [app]. f_equal. by rewrite <- !app_assoc.
    + repeat apply Forall_app_2.
      * subst clone. destruct needs_clone; [|done].
        constructor; [by left|done].
      * subst detect. destruct (changed_files md), (detected_changes w);
          try done.
        constructor; [|done]. right. right. by eexists.
      * repeat case_match; simplify_eq; try done;
          (constructor; [by right; left|done]).
  - intros w Hnever H0 Hsleep Hr. by apply poll_from_times_out; try lia.
Qed.

End ReadinessFacts.

(** ** From the normalizer to the graph *)

Section TriageJob.
Import PyStr Py Fs Graph Logic Parser.

Variable int_of_str : list N -> option Z.

(** What the normalizer builds names its file and carries neither a patch
    nor a pull-request URL. *)
Lemma normalized_fresh (f : gmap string pyval) :
  normalized f ->
  has_file f /\ f !! "remediation_patch" = None /\ f !! "pr_url" = None.
Proof.
  intros [(tool & rule_id & message & uri & line & H)
         |[(rule_id & description & file & line & H)
          |(pluginid & message & url & ->)]].
  - unfold sarif_finding in H. destruct (forbidden_path _); [done|].
    injection H as <-. split; [eexists; by simplify_map_eq|].
    by simplify_map_eq.
  - unfold gitleaks_finding in H. destruct (forbidden_path _); [done|].
    injection H as <-. split; [eexists; by simplify_map_eq|].
    by simplify_map_eq.
  - unfold zap_finding. split; [eexists; by simplify_map_eq|].
    by simplify_map_eq.
Qed.

Lemma with_snippet_ready (f f' : gmap string pyval) :
  fresh f -> with_snippet f f' -> ready_finding f' /\ no_pr_url f'.
Proof.
  intros ([file Hfile] & Hp & Hu) [s ->].
  unfold ready_finding, no_pr_url, get.
  rewrite lookup_insert_eq, !lookup_insert_ne, Hfile, Hp, Hu by done.
  repeat split; [by exists s|by exists (PStr file)].
Qed.

Lemma stamp_ids_ready (populated : list (gmap string pyval)) :
  forall ids,
    length ids = length populated ->
    Forall (fun f => ready_finding f /\ no_pr_url f) populated ->
    length (stamp_ids populated ids) = length populated /\
    Forall ready_finding (stamp_ids populated ids) /\
    Forall no_pr_url (stamp_ids populated ids).
Proof.
  induction populated as [|f populated IH]; intros ids Hlen Hall.
  { by destruct ids. }
  destruct ids as [|i ids]; [done|]. injection Hlen as Hlen.
  inversion Hall as [|? ? [Hr Hn] Hrest]; subst.
  destruct (IH ids Hlen Hrest) as (Hl & Hrs & Hns). simpl.
  split; [by rewrite Hl|]. split; constructor; try done.
  - by apply ready_finding_insert.
  - unfold no_pr_url in *. by rewrite get_insert_ne.
Qed.

Lemma Forall2_with_snippet_ready (fs populated : list (gmap string pyval)) :
  Forall fresh fs -> Forall2 with_snippet fs populated ->
  Forall (fun f => ready_finding f /\ no_pr_url f) populated.
Proof.
  intros Hf H2. induction H2 as [|f f' fs populated Hw _ IH]; [done|].
  inversion Hf; subst. constructor; [by eapply with_snippet_ready|auto].
Qed.

(** A triage job on normalizer output, with every collaborator answering:
    the workflow makes one pass per finding, at most [TRIAGE_LIMIT] of
    them, the results are stored and the scan is marked completed, and no
    stored finding has a pull-request URL without a patch. *)
Lemma triage_job_completes rounds (w : brain_world) scan_id project
    (fs : list (gmap string pyval)) ids :
  fs <> [] ->
  Forall normalized fs ->
  ensure_services_ready rounds (readiness w) = Some true ->
  prepare_raises w = false ->
  assigned_ids w = Some ids ->
  length ids = length (take TRIAGE_LIMIT fs) ->
  cve_ids fs = Some [] ->
  (forall k, w_sanity_db (passes w k) = DbOk) ->
  store_raises w = false ->
  exists analyzed,
    run_brain_background int_of_str rounds w scan_id project fs =
      Some ([WorkspacePrepared; SnippetsPopulated; FindingsPersisted ids;
             WorkflowInvoked
               (concat (repeat one_pass (length (take TRIAGE_LIMIT fs))));
             ResultsStored analyzed; StatusSet completed]
            ++ if workspace_left w then [WorkspaceRemoved] else []) /\
    length analyzed = length (take TRIAGE_LIMIT fs) /\
    Forall pr_url_needs_patch analyzed.
Proof.
  intros Hne Hnorm Hready Hprep Hids Hlen Hcve Hdb Hstore.
  assert (Forall fresh (take TRIAGE_LIMIT fs)) as Hfresh.
  { apply Forall_take. eapply Forall_impl; [done|]. apply normalized_fresh. }
  destruct (utils_populate_snippets_total int_of_str (source_files w)
              (temp_src w) (take TRIAGE_LIMIT fs))
    as (populated & Hpop & H2).
  { eapply Forall_impl; [done|]. by intros f (? & _). }
  pose proof (Forall2_length _ _ _ H2) as Hl2.
  destruct (stamp_ids_ready populated ids) as (Hl & Hrs & Hns).
  { lia. }
  { by eapply Forall2_with_snippet_ready. }
  set (graph_findings := stamp_ids populated ids) in *.
  assert (length graph_findings = length (take TRIAGE_LIMIT fs)) as Hg by lia.
  assert (0 < length graph_findings)%nat as Hpos.
  { rewrite Hg. destruct fs; [done|]. simpl. lia. }
  assert (length graph_findings <= TRIAGE_LIMIT)%nat as Hcap.
  { rewrite Hg, length_take. lia. }
  set (st0 := mkState graph_findings 0 [] (temp_src w) project).
  destruct (run_remaining (passes w) Hdb (length graph_findings) 0 0
              recursion_limit st0)
    as (final & Hrun & _ & _ & _ & Hfl); try done.
  { unfold recursion_limit, TRIAGE_LIMIT in *. lia. }
  pose proof (run_from_invariant (passes w) recursion_limit Ntriage 0 st0)
    as Hinv.
  rewrite Hrun in Hinv. simpl in Hinv.
  exists (analyzed_findings final).
  unfold run_brain_background, run_workflow.
  rewrite Hready, Hprep, Hpop, Hids, Hcve.
  fold graph_findings. fold st0. unfold graph_app_invoke.
  rewrite Hrun, Hstore, Hg. simpl in Hfl.
  split; [done|]. split; [lia|]. apply Hinv.
  split; [constructor|]. split; [done|done].
Qed.

End TriageJob.

(** ** Worked instances *)

Section Instances.
Import PyStr Py Fs Graph Logic SpecWords Examples.

(** C3 (as stated) fails: with services that never report ready the full
    scan job has called the scanner service, which launches the analyzers,
    before the scan is marked failed. *)
Lemma C3_counterexample : ~ spec_readiness_timeout.
Proof.
  intros H.
  destruct (H no_int 62%nat (job_with never_ready) (cps "o/r") (cps "/src")
              no_metadata
              [ScanRowCreated 1; AnalyzersLaunched None [];
               ReportParsed (cps "/tmp/scans/semgrep_ab12cd34.sarif");
               StatusSet analyzing; StatusSet failed])
    as [_ Hnone]; [by vm_compute..|].
  apply (Hnone None []). apply elem_of_cons. right. apply elem_of_cons. by left.
Qed.

Lemma C3_readiness_timeout_witness :
  run_brain_background no_int 62 (brain_with never_ready) 1 (cps "o/r")
    [finding_auth] = Some [StatusSet failed].
Proof.
  apply (proj1 (C3_readiness_timeout no_int 62)). vm_compute. reflexivity.
Defined.

Lemma C1_pr_url_needs_patch_witness :
  Forall (fun f => get f "pr_url" <> PNone ->
                   get f "remediation_patch" <> PNone)
    (analyzed_findings
       (outcome_state
          (graph_app_invoke 150 (fun _ => pass_accepting)
             (mkState [finding_auth] 0 [] [] [])).2)).
Proof.
  apply (C1_pr_url_needs_patch (fun _ => pass_accepting) 150
           [finding_auth] [] []).
  constructor; [vm_compute; reflexivity | constructor].
Defined.

Lemma C2_sanity_check_witness :
  outcome_state
    (node_sanity_check DbOk (mkState [] 1 [finding_patched] [] [])) =
  with_analyzed (mkState [] 1 [finding_patched] [] [])
    (set_last [finding_patched]
       (<["remediation_patch" := PNone]> finding_patched)).
Proof.
  apply (C2_sanity_check DbOk (mkState [] 1 [finding_patched] [] [])
           finding_patched (cps "import auth, jwt") (cps "import jwt")).
  - reflexivity.
  - exists (PStr (cps "app.py")). vm_compute. reflexivity.
  - vm_compute. reflexivity.
  - vm_compute. reflexivity.
  - vm_compute. discriminate.
  - left. exists (cps "auth"). split; [|split].
    + apply elem_of_cons. left. reflexivity.
    + vm_compute. reflexivity.
    + vm_compute. reflexivity.
Defined.

Lemma C6_snippet_population_witness :
  exists populated,
    Parser.populate_snippets one_file [finding_auth] (cps "/src")
      = (populated, None) /\
    Forall2 Parser.with_snippet [finding_auth] populated.
Proof.
  apply (C6_snippet_population no_int one_file (cps "/src")).
  constructor; [|constructor].
  exists (cps "app.py"). vm_compute. reflexivity.
Defined.

Lemma C7_clean_path_witness :
  Parser._clean_path
    (Parser._clean_path (cps "file:///tmp/scans/ab12cd34_src/app/x.py"))
  = Parser._clean_path (cps "file:///tmp/scans/ab12cd34_src/app/x.py").
Proof.
  apply (C7_clean_path (cps "file:///tmp/scans/ab12cd34_src/app/x.py")).
  vm_compute. reflexivity.
Defined.

Lemma C8_delta_targets_witness :
  Scanner.launched
    (Scanner.run_scan delta_world None [] [cps "/a.py"; cps "gone.py"]) =
  [("semgrep",
    Scanner.semgrep_options (cps "ab12cd34") []
    ++ [cps "/tmp/scans/ab12cd34_src/a.py"], [0%Z]);
   ("gitleaks",
    Scanner.gitleaks_cmd (cps "ab12cd34") [cps "/a.py"; cps "gone.py"],
    [0%Z]);
   ("trivy", Scanner.trivy_cmd (cps "ab12cd34"), [0%Z])].
Proof.
  apply (C8_delta_targets delta_world None [] [cps "/a.py"; cps "gone.py"]).
  - discriminate.
  - right. reflexivity.
Defined.

Lemma C9_empty_findings_raise_witness :
  run_brain_background no_int 62 (brain_with ready_at_once) 1 (cps "o/r") [] =
  Some [WorkspacePrepared; SnippetsPopulated; FindingsPersisted [7%Z];
        WorkflowInvoked [Ntriage]; StatusSet failed; WorkspaceRemoved].
Proof.
  apply (C9_empty_findings_raise LlmRaised (fun _ => pass_accepting) 0 [] []
           (cps "o/r")).
  - vm_compute. reflexivity.
  - reflexivity.
  - reflexivity.
Defined.

Lemma C10_loop_terminates_witness :
  exists final,
    graph_app_invoke 150 (fun _ => pass_accepting)
      (mkState [finding_auth] 0 [] [] [])
      = (concat (repeat one_pass 1), Returned final) /\
    run_passes (fun _ => pass_accepting) 0 1
      (mkState [finding_auth] 0 [] [] []) = Returned final /\
    current_index final = 1%Z /\
    length (analyzed_findings final) = 1%nat /\
    should_continue final = END.
Proof.
  apply (C10_loop_terminates (fun _ => pass_accepting) 150
           [finding_auth] [] []).
  - discriminate.
  - constructor; [|constructor].
    split; [exists (cps "import auth, jwt"); vm_compute; reflexivity|].
    split; [exists (PStr (cps "app.py")); vm_compute; reflexivity|].
    vm_compute. reflexivity.
  - reflexivity.
  - vm_compute. lia.
Defined.

End Instances.
